(** * Twitter-Insight-LLM: the scraping loop of [twitter_data_ingestion.py]

    A shallow embedding of [TwitterExtractor] ([__init__], [set_token],
    [fetch_tweets], [_save_intermediate_data], [_save_to_excel]).

    The browser is the environment: each iteration of the [while] loop of
    [fetch_tweets] receives one answer of the page ([Fetch]): no tweet
    ([_get_first_tweet] returned [None]), an exception raised by
    [_get_first_tweet] or [_process_tweet], or the row built by
    [_process_tweet].  Observable actions (deleting the first article,
    sleeping, logging, writing files) are recorded in an effect trace.
    Writes of the JSON files are assumed to succeed; the outcome of the
    pandas calls [read_json], [to_excel] and [to_csv] is part of the
    environment, as the code handles their failures. *)

From Stdlib Require Import String Ascii List ZArith Bool Lia Sorted.
Import ListNotations.
Open Scope Z_scope.

(** ** Python string helpers *)

(** [str.startswith] on character lists, returning the rest. *)
Fixpoint strip_prefix (p s : list ascii) : option (list ascii) :=
  match p, s with
  | [], _ => Some s
  | c :: p', d :: s' => if Ascii.eqb c d then strip_prefix p' s' else None
  | _ :: _, [] => None
  end.

(** [s.replace(old, new)] for a non-empty [old]: every non-overlapping
    occurrence, scanned from the left, is replaced.  [fuel] is the length
    of [s]. *)
Fixpoint replace_go (old new : list ascii) (fuel : nat) (s : list ascii)
  : list ascii :=
  match fuel with
  | O => s
  | S fuel' =>
      match s with
      | [] => []
      | c :: s' =>
          match strip_prefix old s with
          | Some rest => new ++ replace_go old new fuel' rest
          | None => c :: replace_go old new fuel' s'
          end
      end
  end.

Definition py_replace (old new s : string) : string :=
  let l := list_ascii_of_string s in
  string_of_list_ascii
    (replace_go (list_ascii_of_string old) (list_ascii_of_string new)
       (List.length l) l).

(** Python truthiness of a value that is a [str] or [None]. *)
Definition truthy (o : option string) : bool :=
  match o with
  | Some s => negb (String.eqb s "")
  | None => false
  end.

(** [user_url.split('/')[-1]]. *)
Fixpoint last_segment_go (s cur : string) : string :=
  match s with
  | EmptyString => cur
  | String c s' =>
      if Ascii.eqb c "/"%char then last_segment_go s' ""
      else last_segment_go s' (cur ++ String c "")
  end.

Definition last_segment (s : string) : string := last_segment_go s "".

(** ** Python [datetime] values

    A [datetime] as produced by [datetime.fromisoformat]: its fields and
    its UTC offset in seconds ([None] for a naive value). *)
Record datetime := mkdt {
  year : Z; month : Z; day : Z;
  hour : Z; minute : Z; second : Z; microsecond : Z;
  tzoffset : option Z
}.

(** Proleptic Gregorian day number of a calendar date. *)
Definition days_from_civil (y m d : Z) : Z :=
  let y' := if m <=? 2 then y - 1 else y in
  let era := y' / 400 in
  let yoe := y' - era * 400 in
  let mp := if 2 <? m then m - 3 else m + 9 in
  let doy := (153 * mp + 2) / 5 + d - 1 in
  let doe := yoe * 365 + yoe / 4 - yoe / 100 + doy in
  era * 146097 + doe - 719468.

(** Microseconds since the epoch of the wall-clock fields. *)
Definition local_key (t : datetime) : Z :=
  ((days_from_civil (year t) (month t) (day t) * 86400
    + hour t * 3600 + minute t * 60 + second t) * 1000000)
  + microsecond t.

(** The instant an aware value denotes (the wall clock for a naive one). *)
Definition utc_key (t : datetime) : Z :=
  match tzoffset t with
  | Some o => local_key t - o * 1000000
  | None => local_key t
  end.

Definition aware (t : datetime) : bool :=
  match tzoffset t with Some _ => true | None => false end.

(** [a < b] on datetimes: [None] is the [TypeError] Python raises when a
    naive and an aware value are compared. *)
Definition dt_lt (a b : datetime) : option bool :=
  if Bool.eqb (aware a) (aware b) then Some (utc_key a <? utc_key b)
  else None.

(** [a > b]. *)
Definition dt_gt (a b : datetime) : option bool := dt_lt b a.

(** [a.date() < b.date()]: dates compare by (year, month, day). *)
Definition date_lt (a b : datetime) : bool :=
  (year a <? year b)
  || ((year a =? year b)
      && ((month a <? month b) || ((month a =? month b) && (day a <? day b)))).

(** [dt.replace(tzinfo=None)]. *)
Definition strip_tz (t : datetime) : datetime :=
  mkdt (year t) (month t) (day t) (hour t) (minute t) (second t)
    (microsecond t) None.

(** ** Records *)

(** The dict built by [_process_tweet].  [_get_element_attribute] and
    [get_attribute] may return [None], hence the [option string] fields. *)
Record Row := mkRow {
  text : string;
  author_name : string;
  author_handle : string;
  date : option string;
  lang : option string;
  url : option string;
  mentioned_urls : list (option string);
  is_retweet_flag : bool;
  media_type : string;
  images_urls : option (list (option string));
  num_reply : Z;
  num_retweet : Z;
  num_like : Z
}.

(** One answer of the page to an iteration of the loop. *)
Inductive Fetch :=
| NoTweet                    (* [_get_first_tweet] returned [None] *)
| FetchError                 (* [_get_first_tweet]/[_process_tweet] raised *)
| Tweet (r : Row).           (* [_process_tweet] returned [r] *)

(** A cell of the [date] column after [pd.read_json]. *)
Inductive DateCell :=
| DRaw (v : option string)
| DConv (t : datetime).

Definition DataFrame := list (Row * DateCell).

Inductive LogLevel := LInfo | LWarning | LError.

Inductive Effect :=
| EStartChrome
| ESetCookie (token : string)
| ESearch (username start_date end_date : string)
| ESleep
| EDeleteFirst
| ELog (l : LogLevel)
| ESnapshot (filename : string) (rows : list Row)
| EWriteJson (filename : string) (rows : list Row)
| EWriteExcel (filename : string) (df : DataFrame)
| EWriteCsv (filename : string) (df : DataFrame).

(** ** [fetch_tweets], [_save_to_excel] and [__init__] *)

Section Scraper.

(** [datetime.fromisoformat], [datetime.strptime(s, "%Y-%m-%d")],
    [strftime('%Y-%m-%d')], and the clock readings [datetime.now()]
    formatted as in the source ([now_stamp] is indexed by the snapshot's
    record count). *)
Variable fromisoformat : string -> option datetime.
Variable strptime_ymd : string -> option datetime.
Variable strftime_ymd : datetime -> string.
Variable now_ymd : string.
Variable now_stamp : Z -> string.

Record LoopState := mkLS {
  processed_count : Z;
  author_handles : list string;   (* a Python set, in insertion order *)
  min_date : option datetime;
  max_date : option datetime;
  tweets_data : list Row
}.

Definition init_state : LoopState := mkLS 0 [] None None [].

Definition set_count (st : LoopState) (n : Z) : LoopState :=
  mkLS n (author_handles st) (min_date st) (max_date st) (tweets_data st).
Definition set_min (st : LoopState) (m : option datetime) : LoopState :=
  mkLS (processed_count st) (author_handles st) m (max_date st) (tweets_data st).
Definition set_max (st : LoopState) (m : option datetime) : LoopState :=
  mkLS (processed_count st) (author_handles st) (min_date st) m (tweets_data st).

(** [set.add]. *)
Definition set_add (x : string) (s : list string) : list string :=
  if existsb (String.eqb x) s then s else s ++ [x].

(** [row["author_handle"].replace("@", "")]. *)
Definition clean_handle (r : Row) : string := py_replace "@" "" (author_handle r).

(** [if min_date is None or date < min_date: min_date = date];
    [None] when the comparison raises [TypeError]. *)
Definition update_min (t : datetime) (m : option datetime)
  : option (option datetime) :=
  match m with
  | None => Some (Some t)
  | Some m0 =>
      match dt_lt t m0 with
      | None => None
      | Some true => Some (Some t)
      | Some false => Some (Some m0)
      end
  end.

(** [if max_date is None or date > max_date: max_date = date]. *)
Definition update_max (t : datetime) (m : option datetime)
  : option (option datetime) :=
  match m with
  | None => Some (Some t)
  | Some m0 =>
      match dt_gt t m0 with
      | None => None
      | Some true => Some (Some t)
      | Some false => Some (Some m0)
      end
  end.

Inductive Flow := Next | Stop.

(** [_save_intermediate_data]: the file name and the whole list. *)
Definition intermediate_filename (username : string) (n : Z) : string :=
  "data/" ++ username ++ "_intermediate_" ++ now_stamp n ++ ".json".

(** Lines 169-185: collect the handle, append the row, delete the article
    and save a snapshot every ten processed tweets. *)
Definition accept (username : string) (st : LoopState) (row : Row)
  : Flow * LoopState * list Effect :=
  let handles :=
    if String.eqb (author_handle row) "" then author_handles st
    else set_add (clean_handle row) (author_handles st) in
  let data := tweets_data st ++ [row] in
  let st' := mkLS (processed_count st) handles (min_date st) (max_date st) data in
  (Next, st',
   [ELog LInfo; EDeleteFirst]
   ++ (if processed_count st mod 10 =? 0
       then [ESnapshot (intermediate_filename username (processed_count st)) data;
             ELog LInfo]
       else [])).

(** One execution of the body of [while processed_count < max_tweets]
    (lines 132-191).  [sd] and [ed] are [start_date_obj] and
    [end_date_obj].  An exception inside the [try] ends in the
    [except Exception] handler: log, delete the first article, continue. *)
Definition iteration (username : string) (sd ed : datetime) (ev : Fetch)
  (st : LoopState) : Flow * LoopState * list Effect :=
  match ev with
  | NoTweet => (Next, st, [ELog LWarning; ESleep])
  | FetchError => (Next, st, [ELog LError; EDeleteFirst])
  | Tweet row =>
      let st1 := set_count st (processed_count st + 1) in
      if truthy (date row) then
        let d := match date row with Some d => d | None => ""%string end in
        match fromisoformat (py_replace "Z" "+00:00" d) with
        | None => (Next, st1, [ELog LWarning; EDeleteFirst])
        | Some t =>
            match update_min t (min_date st1) with
            | None => (Next, st1, [ELog LError; EDeleteFirst])
            | Some mn =>
                let st2 := set_min st1 mn in
                match update_max t (max_date st2) with
                | None => (Next, st2, [ELog LError; EDeleteFirst])
                | Some mx =>
                    let st3 := set_max st2 mx in
                    if date_lt t sd then (Stop, st3, [ELog LInfo; ELog LInfo])
                    else if date_lt ed t then
                      (Next, st3, [ELog LInfo; ELog LInfo; EDeleteFirst])
                    else
                      let '(fl, st4, e) := accept username st3 row in
                      (fl, st4, ELog LInfo :: e)
                end
            end
        end
      else accept username st1 row
  end.

Definition max_tweets : Z := 100.

(** The loop over the page's answers.  The result is: whether the loop
    has terminated, the final state, the effects, and the number of times
    the body ran.  When the answers run out with the condition still true
    the loop has not terminated. *)
Fixpoint run_loop (username : string) (sd ed : datetime) (evs : list Fetch)
  (st : LoopState) : bool * LoopState * list Effect * nat :=
  if processed_count st <? max_tweets then
    match evs with
    | [] => (false, st, [], O)
    | ev :: evs' =>
        let '(fl, st', e) := iteration username sd ed ev st in
        match fl with
        | Stop => (true, st', e, 1%nat)
        | Next =>
            let '(done, st'', e', n) := run_loop username sd ed evs' st' in
            (done, st'', e ++ e', S n)
        end
    end
  else (true, st, [], O).

(** Lines 193-212. *)
Definition file_prefix (username : string) (st : LoopState) : string :=
  match author_handles st with
  | [h] => h
  | _ => username
  end.

Definition date_range (st : LoopState) : string :=
  match min_date st, max_date st with
  | Some mn, Some mx => strftime_ymd mn ++ "_" ++ strftime_ymd mx
  | _, _ => now_ymd
  end.

Definition cur_filename (username : string) (st : LoopState) : string :=
  "data/" ++ file_prefix username st ++ "@" ++ date_range st.

(** Outcome of the pandas calls of [_save_to_excel]. *)
Record PandasIO := mkIO {
  json_read_ok : bool;
  excel_write_ok : bool;
  csv_write_ok : bool
}.

(** [pd.read_json(json_filename, lines=True, convert_dates=False)] reads the
    rows back; the [date] column keeps its strings and nulls. *)
Definition read_frame (rows : list Row) : DataFrame :=
  map (fun r => (r, DRaw (date r))) rows.

(** The lambda of line 550 on one cell; [None] when [fromisoformat]
    raises [ValueError]. *)
Definition convert_cell (c : DateCell) : option DateCell :=
  match c with
  | DRaw (Some s) =>
      match fromisoformat (py_replace "Z" "+00:00" s) with
      | Some t => Some (DConv (strip_tz t))
      | None => None
      end
  | c => Some c
  end.

(** [cur_df['date'].apply(...)]: one failing cell aborts the whole apply. *)
Fixpoint convert_dates (df : DataFrame) : option DataFrame :=
  match df with
  | [] => Some []
  | (r, c) :: df' =>
      match convert_cell c, convert_dates df' with
      | Some c', Some df'' => Some ((r, c') :: df'')
      | _, _ => None
      end
  end.

Definition option_string_eqb (a b : option string) : bool :=
  match a, b with
  | Some x, Some y => String.eqb x y
  | None, None => true
  | _, _ => false
  end.

(** [drop_duplicates(subset=["url"])], keeping first occurrences. *)
Fixpoint drop_duplicates_go (seen : list (option string)) (df : DataFrame)
  : DataFrame :=
  match df with
  | [] => []
  | (r, c) :: df' =>
      if existsb (option_string_eqb (url r)) seen
      then drop_duplicates_go seen df'
      else (r, c) :: drop_duplicates_go (url r :: seen) df'
  end.

Definition drop_duplicates (df : DataFrame) : DataFrame := drop_duplicates_go [] df.

(** The [except] branch of [_save_to_excel]: two error logs, then
    [cur_df.to_csv(output_filename.replace('.xlsx', '.csv'))]. *)
Definition csv_fallback (io : PandasIO) (output_filename : string)
  (cur_df : DataFrame) : list Effect :=
  [ELog LError; ELog LError]
  ++ (if csv_write_ok io
      then [EWriteCsv (py_replace ".xlsx" ".csv" output_filename) cur_df;
            ELog LInfo]
      else [ELog LError]).

(** [_save_to_excel], given the rows stored in [json_filename].  When the
    read fails, [cur_df] is unbound in the fallback, whose [NameError] is
    caught and logged.  An empty file gives a frame without columns: there
    is no [date] column to convert, and [drop_duplicates] returns the empty
    frame before it looks the [url] column up, so an empty spreadsheet is
    written. *)
Definition save_to_excel (io : PandasIO) (json_filename output_filename : string)
  (rows : list Row) : list Effect :=
  if negb (json_read_ok io) then [ELog LError; ELog LError; ELog LError]
  else
    let df0 := read_frame rows in
    match convert_dates df0 with
    | None => csv_fallback io output_filename df0
    | Some df1 =>
        let df2 := drop_duplicates df1 in
        if excel_write_ok io then [EWriteExcel output_filename df2; ELog LInfo]
        else csv_fallback io output_filename df2
    end.

Inductive Outcome := Returned | Raised | Running.

(** [fetch_tweets(user_url, start_date, end_date)]. *)
Definition fetch_tweets (io : PandasIO) (user_url start_date end_date : string)
  (evs : list Fetch) : Outcome * list Effect :=
  let username := last_segment user_url in
  let e0 := [ELog LInfo; ELog LInfo; ESearch username start_date end_date] in
  match strptime_ymd start_date, strptime_ymd end_date with
  | Some sd, Some ed =>
      let '(done, st, e, _) := run_loop username sd ed evs init_state in
      if done then
        let cur := cur_filename username st in
        (Returned,
         e0 ++ [ELog LInfo] ++ e
         ++ [EWriteJson (cur ++ ".json") (tweets_data st); ELog LInfo]
         ++ save_to_excel io (cur ++ ".json") (cur ++ ".xlsx") (tweets_data st))
      else (Running, e0 ++ [ELog LInfo] ++ e)
  | _, _ => (Raised, e0)
  end.

Record Config := mkConfig {
  cfg_auth_token : option string;
  cfg_start_date : string;
  cfg_end_date : string;
  cfg_twitter_url : string
}.

(** [os.getenv(key, default)]. *)
Definition getenv (env : string -> option string) (key default : string) : string :=
  match env key with Some v => v | None => default end.

Definition placeholder_token : string := "YOUR_TWITTER_AUTH_TOKEN_HERE".

(** [set_token]: [None] is the [ValueError] of line 82. *)
Definition set_token (auth_token : option string) : option Effect :=
  match auth_token with
  | Some t =>
      if String.eqb t "" || String.eqb t placeholder_token then None
      else Some (ESetCookie t)
  | None => None
  end.

(** [TwitterExtractor.__init__]: [None] when it raises. *)
Definition init (env : string -> option string) : option Config * list Effect :=
  let cfg := mkConfig (env "TWITTER_AUTH_TOKEN"%string)
               (getenv env "START_DATE" "2023-01-01")
               (getenv env "END_DATE" "2023-01-02")
               (getenv env "TWITTER_URL" "https://x.com/elonmusk") in
  match set_token (cfg_auth_token cfg) with
  | None => (None, [ELog LInfo; EStartChrome])
  | Some e => (Some cfg, [ELog LInfo; EStartChrome; e])
  end.

(** The [__main__] block: an exception is caught and logged twice (its
    message, then the traceback). *)
Definition main (env : string -> option string) (io : PandasIO)
  (evs : list Fetch) : list Effect :=
  match init env with
  | (None, e) => e ++ [ELog LError; ELog LError]
  | (Some cfg, e) =>
      let '(o, e') := fetch_tweets io (cfg_twitter_url cfg) (cfg_start_date cfg)
                        (cfg_end_date cfg) evs in
      e ++ e' ++ (match o with Raised => [ELog LError; ELog LError] | _ => [] end)
  end.

End Scraper.

(** ** The datetime library on the inputs used below

    Executable versions of [datetime.fromisoformat] and of
    [datetime.strptime(s, "%Y-%m-%d")] for the forms
    [YYYY-MM-DD] and [YYYY-MM-DDTHH:MM:SS[.fff][+HH:MM|-HH:MM]], with the
    range checks of the [datetime] constructor.  Every string they accept
    is parsed as Python parses it. *)

Definition digit_of (c : ascii) : option Z :=
  let n := Z.of_nat (nat_of_ascii c) in
  if (48 <=? n) && (n <=? 57) then Some (n - 48) else None.

Fixpoint number_go (acc : Z) (cs : list ascii) : option Z :=
  match cs with
  | [] => Some acc
  | c :: cs' =>
      match digit_of c with
      | Some d => number_go (10 * acc + d) cs'
      | None => None
      end
  end.

Definition number (cs : list ascii) : option Z :=
  match cs with [] => None | _ => number_go 0 cs end.

Definition is_leap (y : Z) : bool :=
  (y mod 4 =? 0) && (negb (y mod 100 =? 0) || (y mod 400 =? 0)).

Definition days_in_month (y m : Z) : Z :=
  if m =? 2 then (if is_leap y then 29 else 28)
  else if (m =? 4) || (m =? 6) || (m =? 9) || (m =? 11) then 30
  else 31.

Definition parse_ymd (l : list ascii) : option (Z * Z * Z * list ascii) :=
  match l with
  | y1 :: y2 :: y3 :: y4 :: s1 :: m1 :: m2 :: s2 :: d1 :: d2 :: rest =>
      if Ascii.eqb s1 "-" && Ascii.eqb s2 "-" then
        match number [y1; y2; y3; y4], number [m1; m2], number [d1; d2] with
        | Some y, Some m, Some d =>
            if (1 <=? y) && (1 <=? m) && (m <=? 12) && (1 <=? d)
               && (d <=? days_in_month y m)
            then Some (y, m, d, rest) else None
        | _, _, _ => None
        end
      else None
  | _ => None
  end.

(** [HH:MM:SS] and an optional [.fff]. *)
Definition parse_hms (l : list ascii) : option (Z * Z * Z * Z * list ascii) :=
  match l with
  | h1 :: h2 :: c1 :: n1 :: n2 :: c2 :: s1 :: s2 :: rest =>
      if Ascii.eqb c1 ":" && Ascii.eqb c2 ":" then
        match number [h1; h2], number [n1; n2], number [s1; s2] with
        | Some h, Some mi, Some se =>
            if (h <? 24) && (mi <? 60) && (se <? 60) then
              match rest with
              | dot :: f1 :: f2 :: f3 :: rest' =>
                  if Ascii.eqb dot "." then
                    match number [f1; f2; f3] with
                    | Some ms => Some (h, mi, se, ms * 1000, rest')
                    | None => None
                    end
                  else Some (h, mi, se, 0, rest)
              | _ => Some (h, mi, se, 0, rest)
              end
            else None
        | _, _, _ => None
        end
      else None
  | _ => None
  end.

(** The empty suffix or [+HH:MM] / [-HH:MM], as seconds. *)
Definition parse_offset (l : list ascii) : option (option Z) :=
  match l with
  | [] => Some None
  | [sg; h1; h2; c; m1; m2] =>
      let sign := if Ascii.eqb sg "+" then Some 1
                  else if Ascii.eqb sg "-" then Some (-1) else None in
      match sign, number [h1; h2], number [m1; m2] with
      | Some k, Some h, Some mi =>
          if Ascii.eqb c ":" && (h <? 24) && (mi <? 60)
          then Some (Some (k * (h * 3600 + mi * 60))) else None
      | _, _, _ => None
      end
  | _ => None
  end.

Definition iso_fromisoformat (s : string) : option datetime :=
  match parse_ymd (list_ascii_of_string s) with
  | Some (y, m, d, []) => Some (mkdt y m d 0 0 0 0 None)
  | Some (y, m, d, t :: rest) =>
      if Ascii.eqb t "T" then
        match parse_hms rest with
        | Some (h, mi, se, us, rest') =>
            match parse_offset rest' with
            | Some off => Some (mkdt y m d h mi se us off)
            | None => None
            end
        | None => None
        end
      else None
  | None => None
  end.

Definition iso_strptime (s : string) : option datetime :=
  match parse_ymd (list_ascii_of_string s) with
  | Some (y, m, d, []) => Some (mkdt y m d 0 0 0 0 None)
  | _ => None
  end.

Fixpoint digits_fixed (n : nat) (v : Z) : string :=
  match n with
  | O => ""
  | S n' =>
      digits_fixed n' (v / 10)
      ++ String (ascii_of_nat (48 + Z.to_nat (v mod 10))) ""
  end.

(** [strftime('%Y-%m-%d')] for years 1000 to 9999. *)
Definition iso_strftime (t : datetime) : string :=
  digits_fixed 4 (year t) ++ "-" ++ digits_fixed 2 (month t) ++ "-"
  ++ digits_fixed 2 (day t).

(** The date [fetch_tweets] parses from the record of one answer. *)
Definition parsed_date (fromisoformat : string -> option datetime) (ev : Fetch)
  : option datetime :=
  match ev with
  | Tweet row =>
      if truthy (date row) then
        fromisoformat (py_replace "Z" "+00:00"
                         (match date row with Some d => d | None => ""%string end))
      else None
  | _ => None
  end.

Definition parsed_dates (fromisoformat : string -> option datetime)
  (evs : list Fetch) : list datetime :=
  flat_map (fun ev => match parsed_date fromisoformat ev with
                      | Some t => [t] | None => [] end) evs.

(** The cleaned, non-empty author handles of a list of records. *)
Definition handles_of (rows : list Row) : list string :=
  map clean_handle (filter (fun r => negb (String.eqb (author_handle r) "")) rows).

(** Lines 148-151 on the pair ([min_date], [max_date]); a [TypeError]
    leaves the values assigned before it. *)
Definition minmax_step (t : datetime) (mm : option datetime * option datetime)
  : option datetime * option datetime :=
  match update_min t (fst mm) with
  | None => mm
  | Some mn =>
      match update_max t (snd mm) with
      | None => (mn, snd mm)
      | Some mx => (mn, mx)
      end
  end.

(** [min_date] and [max_date] after the dates [P] were parsed: none when
    [P] is empty; otherwise elements of [P] with the awareness of its first
    date, bounding every date of [P] of that awareness. *)
Definition minmax_inv (P : list datetime) (mm : option datetime * option datetime)
  : Prop :=
  match P with
  | [] => mm = (None, None)
  | t0 :: _ =>
      exists mn mx, mm = (Some mn, Some mx) /\ In mn P /\ In mx P
      /\ aware mn = aware t0 /\ aware mx = aware t0
      /\ forall d, In d P -> aware d = aware t0 ->
         utc_key mn <= utc_key d <= utc_key mx
  end.

Definition handles_inv (st : LoopState) : Prop :=
  NoDup (author_handles st)
  /\ forall x, In x (author_handles st) <-> In x (handles_of (tweets_data st)).

(** ** Reading a tweet element: [_process_tweet] and its helpers *)

(** [s.split(sep)] for a one-character [sep]: every occurrence splits,
    so the result has one more part than there are separators. *)
Fixpoint split_go (sep : ascii) (s cur : string) : list string :=
  match s with
  | EmptyString => [cur]
  | String c s' =>
      if Ascii.eqb c sep then cur :: split_go sep s' ""
      else split_go sep s' (cur ++ String c "")
  end.

Definition py_split_char (sep : ascii) (s : string) : list string :=
  split_go sep s "".

Definition newline : ascii := "010"%char.

(** [_extract_author_details] on the text of the [User-Name] block. *)
Definition extract_author_details (author_details : string) : string * string :=
  match py_split_char newline author_details with
  | p0 :: p1 :: _ => (p0, p1)
  | _ => (author_details, ""%string)
  end.

(** What the element of one tweet answers to the queries of
    [_process_tweet].  [None] for a [find_element] that raises
    [NoSuchElementException]; an attribute read by [get_attribute] is
    [None] when the element lacks it.  An [aria-label] is a list of
    Unicode code points.  [_process_tweet] is retried once on the same
    element, which answers the same way. *)
Record TweetElement := mkTE {
  el_user_name : option string;               (* .//div[@data-testid='User-Name'], text *)
  el_tweet_text : option string;              (* .//div[@data-testid='tweetText'], text *)
  el_time : option (option string);           (* time, datetime *)
  el_text_lang : option (option string);      (* div[data-testid='tweetText'], lang *)
  el_status_link : option (option string);    (* .//a[contains(@href, '/status/')], href *)
  el_links : list (option string);            (* .//a[contains(@href, 'http')], href *)
  el_retweeted : bool;                        (* .//div[contains(text(), 'Retweeted')] *)
  el_video : bool;                            (* div[data-testid='videoPlayer'] *)
  el_photo : bool;                            (* div[data-testid='tweetPhoto'] *)
  el_photo_srcs : list (option string);       (* .//div[@data-testid='tweetPhoto']//img, src *)
  el_aria : string -> option (option (list Z)) (* div[data-testid='<testid>'], aria-label *)
}.

(** [_get_element_text]. *)
Definition get_element_text (found : option string) : string :=
  match found with Some t => t | None => ""%string end.

(** [_get_element_attribute]. *)
Definition get_element_attribute (found : option (option string)) : option string :=
  match found with Some a => a | None => Some ""%string end.

(** [_get_tweet_url]. *)
Definition get_tweet_url (el : TweetElement) : option string :=
  match el_status_link el with Some a => a | None => Some ""%string end.

(** [is_retweet]: a found element is truthy. *)
Definition is_retweet (el : TweetElement) : bool := el_retweeted el.

(** [_get_media_type]. *)
Definition get_media_type (el : TweetElement) : string :=
  if el_video el then "Video"%string
  else if el_photo el then "Image"%string
  else "No media"%string.

(** [_get_images_urls]. *)
Definition get_images_urls (el : TweetElement) : list (option string) :=
  el_photo_srcs el.

(** [sys.int_info.default_max_str_digits]. *)
Definition max_str_digits : nat := 4300.

Section Dom.

(** The Unicode tables of [re]: the value of a non-ASCII decimal digit
    ([\d], which [int] accepts), and [str.isalnum] of a non-ASCII
    character (which with the digits makes [\w]). *)
Variable unicode_digit : Z -> option Z.
Variable unicode_alnum : Z -> bool.

Definition re_digit (c : Z) : option Z :=
  if (48 <=? c) && (c <=? 57) then Some (c - 48)
  else if 128 <=? c then unicode_digit c else None.

Definition re_word (c : Z) : bool :=
  ((48 <=? c) && (c <=? 57)) || ((65 <=? c) && (c <=? 90))
  || ((97 <=? c) && (c <=? 122)) || (c =? 95)
  || ((128 <=? c)
      && (unicode_alnum c || match unicode_digit c with Some _ => true | None => false end)).

(** [re.findall(r"\b\d+\b", text)], scanning left to right; each match
    is given by the values of its digits.  [prev_word]: the previous
    character is a word character; [run]: the digits read since a word
    boundary. *)
Fixpoint findall_digit_runs_go (prev_word : bool) (run : option (list Z)) (s : list Z)
  : list (list Z) :=
  match s with
  | [] => match run with Some r => [r] | None => [] end
  | c :: s' =>
      match re_digit c with
      | Some d =>
          match run with
          | Some r => findall_digit_runs_go true (Some (r ++ [d])) s'
          | None =>
              if prev_word then findall_digit_runs_go true None s'
              else findall_digit_runs_go true (Some [d]) s'
          end
      | None =>
          let w := re_word c in
          match run with
          | Some r =>
              if w then findall_digit_runs_go w None s'
              else r :: findall_digit_runs_go w None s'
          | None => findall_digit_runs_go w None s'
          end
      end
  end.

Definition findall_digit_runs (text : list Z) : list (list Z) :=
  findall_digit_runs_go false None text.

(** [int(s)] on a match: [None] is the [ValueError] CPython (from 3.11)
    raises for a string of more than [sys.get_int_max_str_digits()]
    digits, 4300 by default. *)
Definition py_int_digits (r : list Z) : option Z :=
  if (max_str_digits <? List.length r)%nat then None
  else Some (fold_left (fun acc d => 10 * acc + d) r 0).

(** [[int(s) for s in ...]]: the first [int] that raises ends it. *)
Fixpoint map_py_int (rs : list (list Z)) : option (list Z) :=
  match rs with
  | [] => Some []
  | r :: rs' =>
      match py_int_digits r with
      | None => None
      | Some n =>
          match map_py_int rs' with
          | Some ns => Some (n :: ns)
          | None => None
          end
      end
  end.

(** [_extract_number_from_aria_label]; [None] is the [TypeError] of
    [re.findall] on a missing [aria-label] or the [ValueError] of [int],
    neither of which is caught. *)
Definition extract_number_from_aria_label (el : TweetElement) (testid : string)
  : option Z :=
  match el_aria el testid with
  | None => Some 0
  | Some None => None
  | Some (Some text) =>
      match map_py_int (findall_digit_runs text) with
      | None => None
      | Some numbers => Some (match numbers with n :: _ => n | [] => 0 end)
      end
  end.

(** [_process_tweet]; [None] when it raises. *)
Definition process_tweet (el : TweetElement) : option Row :=
  let '(author_name, author_handle) :=
    extract_author_details (get_element_text (el_user_name el)) in
  (* the dict of lines 330-347, completed by the [update] of lines 355-361 *)
  let data :=
    mkRow (get_element_text (el_tweet_text el)) author_name author_handle
      (get_element_attribute (el_time el))
      (get_element_attribute (el_text_lang el))
      (get_tweet_url el) (el_links el) (is_retweet el) (get_media_type el)
      (if String.eqb (get_media_type el) "Image" then Some (get_images_urls el)
       else None) in
  match extract_number_from_aria_label el "reply",
        extract_number_from_aria_label el "retweet",
        extract_number_from_aria_label el "like" with
  | Some nr, Some nrt, Some nl =>
      Some (data nr nrt nl)
  | _, _, _ => None
  end.

End Dom.

(** ** The search URL of [fetch_tweets] *)

Definition always_safe (c : ascii) : bool :=
  let n := nat_of_ascii c in
  ((65 <=? n)%nat && (n <=? 90)%nat) || ((97 <=? n)%nat && (n <=? 122)%nat)
  || ((48 <=? n)%nat && (n <=? 57)%nat)
  || Ascii.eqb c "_" || Ascii.eqb c "." || Ascii.eqb c "-" || Ascii.eqb c "~".

Definition hex_digit (k : nat) : ascii :=
  if (k <? 10)%nat then ascii_of_nat (48 + k) else ascii_of_nat (55 + k).

(** [urllib.parse.quote(s)] (safe ['/']) on the UTF-8 bytes of [s]. *)
Fixpoint py_quote (s : string) : string :=
  match s with
  | EmptyString => EmptyString
  | String c s' =>
      if always_safe c || Ascii.eqb c "/" then String c (py_quote s')
      else
        let n := nat_of_ascii c in
        String "%" (String (hex_digit (n / 16)) (String (hex_digit (n mod 16))
                                                   (py_quote s')))
  end.

(** Lines 104-110. *)
Definition search_query (username start_date end_date : string) : string :=
  "(from:" ++ username ++ ") until:" ++ end_date ++ " since:" ++ start_date.

Definition search_url (username start_date end_date : string) : string :=
  "https://x.com/search?q=" ++ py_quote (search_query username start_date end_date)
  ++ "&src=typed_query&f=live".

(** The decoding of percent escapes ([urllib.parse.unquote_to_bytes]),
    against which the encoding is checked. *)
Definition hex_val (c : ascii) : option nat :=
  let n := nat_of_ascii c in
  if (48 <=? n)%nat && (n <=? 57)%nat then Some (n - 48)%nat
  else if (65 <=? n)%nat && (n <=? 70)%nat then Some (n - 55)%nat
  else if (97 <=? n)%nat && (n <=? 102)%nat then Some (n - 87)%nat
  else None.

Fixpoint unquote_bytes (s : string) : string :=
  match s with
  | EmptyString => EmptyString
  | String c rest =>
      if Ascii.eqb c "%" then
        match rest with
        | String h1 (String h2 s') =>
            match hex_val h1, hex_val h2 with
            | Some a, Some b => String (ascii_of_nat (16 * a + b)) (unquote_bytes s')
            | _, _ => String c (unquote_bytes rest)
            end
        | _ => String c (unquote_bytes rest)
        end
      else String c (unquote_bytes rest)
  end.

Fixpoint str_forallb (f : ascii -> bool) (s : string) : bool :=
  match s with
  | EmptyString => true
  | String c s' => f c && str_forallb f s'
  end.

(** ** [analyze_tweets.py] *)

(** A value of [json.loads]; [F] is the type of its floats.  An object
    holds the dict's items, keys distinct. *)
#[warnings="-register-all"]
Inductive JValue (F : Type) :=
| JNull
| JBool (b : bool)
| JInt (z : Z)
| JFloat (f : F)
| JStr (s : string)
| JArr (l : list (JValue F))
| JObj (kvs : list (string * JValue F)).

Arguments JNull {F}.
Arguments JBool {F} b.
Arguments JInt {F} z.
Arguments JFloat {F} f.
Arguments JStr {F} s.
Arguments JArr {F} l.
Arguments JObj {F} kvs.

(** What [analyze_tweet_file] prints. *)
Inductive PrintLine (F : Type) :=
| PNoData (path : string)
| PFile (name : string)
| PTotal (n : nat)
| PEarliest (v : JValue F)
| PLatest (v : JValue F)
| PRule.

Arguments PNoData {F} path.
Arguments PFile {F} name.
Arguments PTotal {F} n.
Arguments PEarliest {F} v.
Arguments PLatest {F} v.
Arguments PRule {F}.

Definition py_startswith (p s : string) : bool :=
  match strip_prefix (list_ascii_of_string p) (list_ascii_of_string s) with
  | Some _ => true
  | None => false
  end.

Definition py_endswith (p s : string) : bool :=
  match strip_prefix (rev (list_ascii_of_string p)) (rev (list_ascii_of_string s)) with
  | Some _ => true
  | None => false
  end.

(** [str] ordering: byte order on UTF-8 is code point order. *)
Fixpoint str_ltb (a b : string) : bool :=
  match a, b with
  | EmptyString, EmptyString => false
  | EmptyString, String _ _ => true
  | String _ _, EmptyString => false
  | String c a', String d b' =>
      if Ascii.eqb c d then str_ltb a' b'
      else (nat_of_ascii c <? nat_of_ascii d)%nat
  end.

Section Analyze.

Variable F : Type.
(** [bool] of a float. *)
Variable float_truthy : F -> bool.
(** [json.loads] on one line; [None] is [JSONDecodeError]. *)
Variable json_loads : string -> option (JValue F).
(** Python's [a < b] on two values; [None] is [TypeError].  [a > b] is
    evaluated as [b < a]. *)
Variable py_lt : JValue F -> JValue F -> option bool.

Definition json_truthy (v : JValue F) : bool :=
  match v with
  | JNull => false
  | JBool b => b
  | JInt z => negb (z =? 0)
  | JFloat f => float_truthy f
  | JStr s => negb (String.eqb s "")
  | JArr l => match l with [] => false | _ => true end
  | JObj kvs => match kvs with [] => false | _ => true end
  end.

(** [v.get(key)]; [None] is the [AttributeError] of a value that is not
    a dict. *)
Definition dict_get (v : JValue F) (key : string) : option (JValue F) :=
  match v with
  | JObj kvs =>
      Some (match find (fun kv => String.eqb (fst kv) key) kvs with
            | Some kv => snd kv
            | None => JNull
            end)
  | _ => None
  end.

(** [[tweet.get("date") for tweet in tweets if tweet.get("date")]]. *)
Fixpoint collect_dates (tweets : list (JValue F)) : option (list (JValue F)) :=
  match tweets with
  | [] => Some []
  | t :: ts =>
      match dict_get t "date", collect_dates ts with
      | Some d, Some ds => Some (if json_truthy d then d :: ds else ds)
      | _, _ => None
      end
  end.

(** [min] and [max]: the first item, replaced by each later item that is
    smaller (larger). *)
Fixpoint py_min_go (cur : JValue F) (l : list (JValue F)) : option (JValue F) :=
  match l with
  | [] => Some cur
  | x :: l' =>
      match py_lt x cur with
      | Some true => py_min_go x l'
      | Some false => py_min_go cur l'
      | None => None
      end
  end.

Fixpoint py_max_go (cur : JValue F) (l : list (JValue F)) : option (JValue F) :=
  match l with
  | [] => Some cur
  | x :: l' =>
      match py_lt cur x with
      | Some true => py_max_go x l'
      | Some false => py_max_go cur l'
      | None => None
      end
  end.

(** The valid lines of the file, each through [json.loads]. *)
Definition load_tweets (lines : list string) : list (JValue F) :=
  flat_map (fun line => match json_loads line with
                        | Some v => [v]
                        | None => []
                        end) lines.

(** [analyze_tweet_file] on a file of the given lines. *)
Definition analyze_tweet_file (file_path : string) (lines : list string)
  : Outcome * list (PrintLine F) :=
  let tweets := load_tweets lines in
  match tweets with
  | [] => (Returned, [PNoData file_path])
  | _ =>
      match collect_dates tweets with
      | None => (Raised, [])
      | Some dates =>
          let head := [PFile (last_segment file_path); PTotal (List.length tweets)] in
          match dates with
          | [] => (Returned, head ++ [PRule])
          | d :: ds =>
              match py_min_go d ds with
              | None => (Raised, head)
              | Some mn =>
                  match py_max_go d ds with
                  | None => (Raised, head ++ [PEarliest mn])
                  | Some mx => (Returned, head ++ [PEarliest mn; PLatest mx; PRule])
                  end
              end
          end
      end
  end.

(** The test of [main] on an entry of [os.listdir("data")]. *)
Definition selected (file : string) : bool :=
  py_endswith ".json" file && py_startswith "elonmusk@" file.

(** [main]: [read_lines] gives the lines of a file; a raised exception
    ends the run. *)
Fixpoint analyze_main (read_lines : string -> list string) (files : list string)
  : Outcome * list (PrintLine F) :=
  match files with
  | [] => (Returned, [])
  | file :: files' =>
      if selected file then
        let path := ("data/" ++ file)%string in
        match analyze_tweet_file path (read_lines path) with
        | (Returned, out) =>
            let '(o, out') := analyze_main read_lines files' in (o, out ++ out')
        | (o, out) => (o, out)
        end
      else analyze_main read_lines files'
  end.

End Analyze.

(** ** Helpers for the statements below *)

Definition no_char (sep : ascii) (s : string) : bool :=
  str_forallb (fun c => negb (Ascii.eqb c sep)) s.

(** The number that decimal digits denote. *)
Definition digits_value (ds : list Z) : Z := fold_left (fun acc d => 10 * acc + d) ds 0.

(** ** Concrete inputs *)

Definition mk_tweet (handle : string) (d u : option string) : Row :=
  mkRow "post" "Elon Musk" handle d (Some "en"%string) u [] false "No media" None 0 0 0.

Definition url1 : option string := Some "https://x.com/elonmusk/status/1"%string.
Definition url2 : option string := Some "https://x.com/elonmusk/status/2"%string.
Definition url3 : option string := Some "https://x.com/elonmusk/status/3"%string.

Definition io_ok : PandasIO := mkIO true true true.
Definition io_no_excel : PandasIO := mkIO true false true.

Definition stamp (_ : Z) : string := "20261017_120000".

(** [fetch_tweets("https://x.com/elonmusk", "2023-01-01", "2023-01-10")]
    on a given page, run on 2026-10-17. *)
Definition sample_run (io : PandasIO) (evs : list Fetch) : Outcome * list Effect :=
  fetch_tweets iso_fromisoformat iso_strptime iso_strftime "2026-10-17" stamp io
    "https://x.com/elonmusk" "2023-01-01" "2023-01-10" evs.

Definition sample_loop (evs : list Fetch) : bool * LoopState * list Effect * nat :=
  run_loop iso_fromisoformat stamp "elonmusk" (mkdt 2023 1 1 0 0 0 0 None)
    (mkdt 2023 1 10 0 0 0 0 None) evs init_state.

Definition sample_iteration (ev : Fetch) (st : LoopState)
  : Flow * LoopState * list Effect :=
  iteration iso_fromisoformat stamp "elonmusk" (mkdt 2023 1 1 0 0 0 0 None)
    (mkdt 2023 1 10 0 0 0 0 None) ev st.

Definition r_jan5 : Row :=
  mk_tweet "@elonmusk" (Some "2023-01-05T10:00:00.000Z"%string) url1.
Definition r_dec31 : Row :=
  mk_tweet "@elonmusk" (Some "2022-12-31T10:00:00.000Z"%string) url2.

(** The same post returned twice (as after the "Try reloading" workaround),
    then a post older than [start_date]. *)
Definition dup_page : list Fetch := [Tweet r_jan5; Tweet r_jan5; Tweet r_dec31].

Definition r_jan15 : Row :=
  mk_tweet "@elonmusk" (Some "2023-01-15T10:00:00.000Z"%string) url3.

(** Nine posts inside the range, then one dated after [end_date]. *)
Definition tenth_skipped_page : list Fetch := repeat (Tweet r_jan5) 9 ++ [Tweet r_jan15].

Definition r_bad_date : Row := mk_tweet "@elonmusk" (Some "not-a-date"%string) url3.
Definition r_no_date : Row := mk_tweet "@elonmusk" (Some ""%string) url3.

Definition day_start : datetime := mkdt 2023 1 1 0 0 0 0 None.
Definition day_end : datetime := mkdt 2023 1 10 0 0 0 0 None.
Definition t_jan5 : datetime := mkdt 2023 1 5 10 0 0 0 (Some 0).

(** A post whose date has no offset: [fromisoformat] gives a naive value. *)
Definition r_naive_old : Row :=
  mk_tweet "@elonmusk" (Some "2022-12-31"%string) url2.

(** A post dated [2023-01-08] without offset, between two aware dates. *)
Definition r_naive_late : Row :=
  mk_tweet "@elonmusk" (Some "2023-01-08"%string) url3.

Definition mixed_page : list Fetch := [Tweet r_jan5; Tweet r_naive_late; Tweet r_dec31].

(** A post repeated, a post without a [time] element (empty date), then a
    post older than [start_date]. *)
Definition undated_dup_page : list Fetch :=
  [Tweet r_jan5; Tweet r_jan5; Tweet r_no_date; Tweet r_dec31].

(** The code points of an ASCII string, as an [aria-label] holds them. *)
Definition codepoints (s : string) : list Z :=
  map (fun c => Z.of_nat (nat_of_ascii c)) (list_ascii_of_string s).

(** The Unicode tables of [re] on a page whose labels are ASCII. *)
Definition no_unicode_digit (_ : Z) : option Z := None.
Definition no_unicode_alnum (_ : Z) : bool := false.

(** An article of the timeline: a post with a photo, 12 replies,
    3 reposts and 1024 likes. *)
Definition sample_user_name : string :=
  "Elon Musk" ++ String newline ("@elonmusk" ++ String newline ("·" ++ String newline "Jan 5")).

Definition sample_aria (testid : string) : option (option (list Z)) :=
  if String.eqb testid "reply" then Some (Some (codepoints "12 Replies. Reply"))
  else if String.eqb testid "retweet" then Some (Some (codepoints "3 reposts. Repost"))
  else if String.eqb testid "like" then Some (Some (codepoints "1024 Likes. Like"))
  else None.

Definition sample_element : TweetElement :=
  mkTE (Some sample_user_name) (Some "post"%string)
    (Some (Some "2023-01-05T10:00:00.000Z"%string)) (Some (Some "en"%string))
    (Some url1) [] false false true
    [Some "https://pbs.twimg.com/media/a.jpg"%string] sample_aria.

Definition sample_element_row : Row :=
  mkRow "post" "Elon Musk" "@elonmusk" (Some "2023-01-05T10:00:00.000Z"%string)
    (Some "en"%string) url1 [] false "Image"
    (Some [Some "https://pbs.twimg.com/media/a.jpg"%string]) 12 3 1024.

(** Two articles without a [/status/] link. *)
Definition unlinked_element (txt : string) : TweetElement :=
  mkTE (Some sample_user_name) (Some txt) (Some (Some "2023-01-05T10:00:00.000Z"%string))
    (Some (Some "en"%string)) None [] false false false [] sample_aria.

Definition unlinked_elements : list TweetElement :=
  [unlinked_element "first post"; unlinked_element "second post"].

Definition unlinked_row (txt : string) : Row :=
  mkRow txt "Elon Musk" "@elonmusk" (Some "2023-01-05T10:00:00.000Z"%string)
    (Some "en"%string) (Some ""%string) [] false "No media" None 12 3 1024.

(** The lines of a JSON Lines file, and [json.loads] on them. *)
Definition dq : string := String (ascii_of_nat 34) "".

Definition date_line (d : string) : string :=
  "{" ++ dq ++ "date" ++ dq ++ ": " ++ dq ++ d ++ dq ++ "}".

Definition sample_lines : list string :=
  [date_line "2023-01-05T10:00:00.000Z"; "{broken"%string; date_line "2023-01-02T08:00:00.000Z";
   date_line "2023-01-09T23:00:00.000Z"].

Definition sample_loads (line : string) : option (JValue unit) :=
  if String.eqb line (date_line "2023-01-05T10:00:00.000Z")
  then Some (JObj [("date"%string, JStr "2023-01-05T10:00:00.000Z")])
  else if String.eqb line (date_line "2023-01-02T08:00:00.000Z")
  then Some (JObj [("date"%string, JStr "2023-01-02T08:00:00.000Z")])
  else if String.eqb line (date_line "2023-01-09T23:00:00.000Z")
  then Some (JObj [("date"%string, JStr "2023-01-09T23:00:00.000Z")])
  else None.

Definition no_float_truthy (_ : unit) : bool := false.

(** Python's [<] on the values of the file: strings by code points,
    integers by value, other pairs a [TypeError]. *)
Definition sample_lt (a b : JValue unit) : option bool :=
  match a, b with
  | JStr x, JStr y => Some (str_ltb x y)
  | JInt x, JInt y => Some (x <? y)
  | _, _ => None
  end.

(** The state at the end of a run that collected the handle [elonmusk]. *)
Definition final_state : LoopState :=
  mkLS 2 ["elonmusk"%string] (Some (mkdt 2023 1 2 8 0 0 0 (Some 0)))
    (Some (mkdt 2023 1 9 23 0 0 0 (Some 0))) [].

Example iso_fromisoformat_twitter :
  iso_fromisoformat (py_replace "Z" "+00:00" "2023-01-05T12:30:00.000Z")
  = Some (mkdt 2023 1 5 12 30 0 0 (Some 0)).
Proof. vm_compute. reflexivity. Qed.

Example iso_fromisoformat_bad : iso_fromisoformat "not-a-date" = None.
Proof. vm_compute. reflexivity. Qed.

Example iso_strftime_ex : iso_strftime (mkdt 2023 1 5 0 0 0 0 None) = "2023-01-05"%string.
Proof. vm_compute. reflexivity. Qed.

Example last_segment_ex : last_segment "https://x.com/elonmusk" = "elonmusk"%string.
Proof. vm_compute. reflexivity. Qed.

Example py_replace_ex :
  py_replace ".xlsx" ".csv" "data/a@2023-01-01_2023-01-02.xlsx"
  = "data/a@2023-01-01_2023-01-02.csv"%string.
Proof. vm_compute. reflexivity. Qed.

(** ** Observations on traces *)

Fixpoint snapshots (eff : list Effect) : list (list Row) :=
  match eff with
  | [] => []
  | ESnapshot _ rows :: t => rows :: snapshots t
  | _ :: t => snapshots t
  end.

Fixpoint json_writes (eff : list Effect) : list (string * list Row) :=
  match eff with
  | [] => []
  | EWriteJson f rows :: t => (f, rows) :: json_writes t
  | _ :: t => json_writes t
  end.

Fixpoint excel_writes (eff : list Effect) : list (string * DataFrame) :=
  match eff with
  | [] => []
  | EWriteExcel f df :: t => (f, df) :: excel_writes t
  | _ :: t => excel_writes t
  end.

Fixpoint csv_writes (eff : list Effect) : list (string * DataFrame) :=
  match eff with
  | [] => []
  | EWriteCsv f df :: t => (f, df) :: csv_writes t
  | _ :: t => csv_writes t
  end.

Definition is_file_write (e : Effect) : bool :=
  match e with
  | ESnapshot _ _ | EWriteJson _ _ | EWriteExcel _ _ | EWriteCsv _ _ => true
  | _ => false
  end.

Definition is_prefix {A} (a b : list A) : Prop := exists t, b = a ++ t.

Definition row_url (p : Row * DateCell) : option string := url (fst p).

(** ** Lemmas on the loop *)

Section LoopFacts.

Variable fromisoformat : string -> option datetime.
Variable now_stamp : Z -> string.

Lemma snapshots_app (a b : list Effect) :
  snapshots (a ++ b) = snapshots a ++ snapshots b.
Proof.
  induction a as [|e a IH]; [reflexivity|].
  destruct e; simpl; rewrite ?IH; reflexivity.
Qed.

Lemma is_prefix_refl {A} (a : list A) : is_prefix a a.
Proof. exists []. now rewrite app_nil_r. Qed.

Lemma is_prefix_trans {A} (a b c : list A) :
  is_prefix a b -> is_prefix b c -> is_prefix a c.
Proof.
  intros [t1 ->] [t2 ->]. exists (t1 ++ t2). now rewrite app_assoc.
Qed.

Lemma accept_eq u st row :
  accept now_stamp u st row =
  (Next,
   mkLS (processed_count st)
     (if String.eqb (author_handle row) "" then author_handles st
      else set_add (clean_handle row) (author_handles st))
     (min_date st) (max_date st) (tweets_data st ++ [row]),
   [ELog LInfo; EDeleteFirst]
   ++ (if processed_count st mod 10 =? 0
       then [ESnapshot (intermediate_filename now_stamp u (processed_count st))
               (tweets_data st ++ [row]); ELog LInfo]
       else [])).
Proof. reflexivity. Qed.

Lemma accept_snapshots u st row :
  Forall (eq (tweets_data st ++ [row]))
    (snapshots (snd (accept now_stamp u st row))).
Proof.
  rewrite accept_eq. simpl.
  destruct (processed_count st mod 10 =? 0); simpl; auto.
Qed.

(** Each iteration leaves the list alone and writes no snapshot, or
    appends the row it received and snapshots at most the new list. *)
Lemma iteration_data u sd ed ev st fl st' e :
  iteration fromisoformat now_stamp u sd ed ev st = (fl, st', e) ->
  (tweets_data st' = tweets_data st /\ snapshots e = [])
  \/ (exists row, ev = Tweet row /\ tweets_data st' = tweets_data st ++ [row]
      /\ Forall (eq (tweets_data st')) (snapshots e)).
Proof.
  intros H. destruct ev as [| |row]; simpl in H.
  - inversion H; subst. left; auto.
  - inversion H; subst. left; auto.
  - assert (Hacc : forall st0, tweets_data st0 = tweets_data st ->
             accept now_stamp u st0 row = (fl, st', e) ->
             exists row', Tweet row = Tweet row'
               /\ tweets_data st' = tweets_data st ++ [row']
               /\ Forall (eq (tweets_data st')) (snapshots e)).
    { intros st0 Hd Ha. exists row.
      pose proof (accept_snapshots u st0 row) as Hs.
      rewrite Ha in Hs. rewrite accept_eq in Ha. inversion Ha; subst; simpl.
      rewrite <- Hd. auto. }
    destruct (truthy (date row)).
    + destruct (fromisoformat _) as [t|].
      2:{ inversion H; subst. left; auto. }
      destruct (update_min t _) as [mn|].
      2:{ inversion H; subst. left; auto. }
      destruct (update_max t _) as [mx|].
      2:{ inversion H; subst. left; auto. }
      destruct (date_lt t sd).
      { inversion H; subst. left; auto. }
      destruct (date_lt ed t).
      { inversion H; subst. left; auto. }
      inversion H; subst. right. exists row. simpl.
      repeat split; auto.
      destruct (_ mod 10 =? 0); simpl; auto.
    + right. exact (Hacc (set_count st (processed_count st + 1)) eq_refl H).
Qed.

Lemma StronglySorted_app {A} (R : A -> A -> Prop) (l1 l2 : list A) :
  StronglySorted R l1 -> StronglySorted R l2 ->
  (forall x y, In x l1 -> In y l2 -> R x y) ->
  StronglySorted R (l1 ++ l2).
Proof.
  induction l1 as [|a l1 IH]; intros H1 H2 H12; simpl; auto.
  inversion H1 as [|? ? Hs Hf]; subst. constructor.
  - apply IH; auto. intros x y Hx Hy. apply H12; simpl; auto.
  - apply Forall_app. split; auto.
    apply Forall_forall. intros y Hy. apply H12; simpl; auto.
Qed.

Lemma StronglySorted_const {A} (R : A -> A -> Prop) (a : A) (l : list A) :
  R a a -> Forall (eq a) l -> StronglySorted R l.
Proof.
  intros Ha Hl. induction Hl as [|x l Hx Hl IH]; constructor; auto.
  subst x. apply Forall_forall. intros y Hy.
  rewrite Forall_forall in Hl. rewrite <- (Hl y Hy). exact Ha.
Qed.

(** Along the loop the list only grows, and the snapshots are prefixes of
    one another, in the order they are written. *)
Lemma run_loop_data u sd ed evs : forall st done st' e n,
  run_loop fromisoformat now_stamp u sd ed evs st = (done, st', e, n) ->
  is_prefix (tweets_data st) (tweets_data st')
  /\ Forall (fun s => is_prefix (tweets_data st) s /\ is_prefix s (tweets_data st'))
       (snapshots e)
  /\ StronglySorted is_prefix (snapshots e).
Proof.
  induction evs as [|ev evs IH]; intros st done st' e n H; simpl in H.
  - destruct (processed_count st <? max_tweets); inversion H; subst;
      repeat split; auto using is_prefix_refl; constructor.
  - destruct (processed_count st <? max_tweets).
    2:{ inversion H; subst. repeat split; auto using is_prefix_refl; constructor. }
    destruct (iteration fromisoformat now_stamp u sd ed ev st) as [[fl st1] e1] eqn:Hit.
    pose proof (iteration_data _ _ _ _ _ _ _ _ Hit) as Hd.
    assert (Hp1 : is_prefix (tweets_data st) (tweets_data st1)).
    { destruct Hd as [[-> _]|[row [_ [-> _]]]]; [apply is_prefix_refl|].
      exists [row]; reflexivity. }
    assert (Hs1 : Forall (eq (tweets_data st1)) (snapshots e1)).
    { destruct Hd as [[_ ->]|[row [_ [_ Hs]]]]; auto. }
    destruct fl.
    + destruct (run_loop fromisoformat now_stamp u sd ed evs st1)
        as [[[d2 st2] e2] k] eqn:Hr.
      inversion H; subst.
      destruct (IH _ _ _ _ _ Hr) as [Hp2 [Hf2 Hss2]].
      rewrite snapshots_app.
      repeat split.
      * eapply is_prefix_trans; eauto.
      * apply Forall_app. split.
        -- eapply Forall_impl; [|exact Hs1]. intros s <-. split; auto.
        -- eapply Forall_impl; [|exact Hf2]. intros s [Ha Hb].
           split; auto. eapply is_prefix_trans; eauto.
      * apply StronglySorted_app; auto.
        -- eapply StronglySorted_const; [apply is_prefix_refl|exact Hs1].
        -- intros x y Hx Hy. rewrite Forall_forall in Hs1, Hf2.
           rewrite <- (Hs1 x Hx). apply (Hf2 y Hy).
    + inversion H; subst. repeat split; auto.
      * eapply Forall_impl; [|exact Hs1]. intros s <-. split; auto.
        apply is_prefix_refl.
      * eapply StronglySorted_const; [apply is_prefix_refl|exact Hs1].
Qed.

(** A snapshot written by a run of the loop is written by the iteration of
    some answer [k]: [d] is what that iteration adds to the trace of the
    first [k] answers, and the snapshot is the whole list after it.  (The
    result of [run_loop] is [(((done, state), effects), count)].) *)
Lemma run_loop_snapshot_written u sd ed evs : forall st done st' e n s,
  run_loop fromisoformat now_stamp u sd ed evs st = (done, st', e, n) ->
  In s (snapshots e) ->
  exists k d,
    snd (fst (run_loop fromisoformat now_stamp u sd ed (firstn (S k) evs) st))
    = snd (fst (run_loop fromisoformat now_stamp u sd ed (firstn k evs) st)) ++ d
    /\ In s (snapshots d)
    /\ s = tweets_data (snd (fst (fst (run_loop fromisoformat now_stamp u sd ed
                                         (firstn (S k) evs) st)))).
Proof.
  induction evs as [|ev evs IH]; intros st done st' e n s H Hin; simpl in H.
  - destruct (processed_count st <? max_tweets); inversion H; subst; destruct Hin.
  - destruct (processed_count st <? max_tweets) eqn:Hc.
    2:{ inversion H; subst. destruct Hin. }
    destruct (iteration fromisoformat now_stamp u sd ed ev st) as [[fl st1] e1] eqn:Hit.
    pose proof (iteration_data _ _ _ _ _ _ _ _ Hit) as Hd.
    assert (Hfirst : In s (snapshots e1) ->
              exists k d,
                snd (fst (run_loop fromisoformat now_stamp u sd ed (firstn (S k) (ev :: evs)) st))
                = snd (fst (run_loop fromisoformat now_stamp u sd ed (firstn k (ev :: evs)) st)) ++ d
                /\ In s (snapshots d)
                /\ s = tweets_data (snd (fst (fst (run_loop fromisoformat now_stamp u sd ed
                                                     (firstn (S k) (ev :: evs)) st))))).
    { intros Hs. exists O, e1.
      assert (Hs1 : s = tweets_data st1).
      { destruct Hd as [[_ He]|[row [_ [_ Hf]]]]; [rewrite He in Hs; destruct Hs|].
        rewrite Forall_forall in Hf. symmetry. exact (Hf s Hs). }
      cbn [firstn run_loop]. rewrite Hc, Hit.
      destruct fl; cbn [run_loop];
        [destruct (processed_count st1 <? max_tweets)|]; cbn;
        rewrite ?app_nil_r; auto. }
    destruct fl.
    + destruct (run_loop fromisoformat now_stamp u sd ed evs st1)
        as [[[d2 st2] e2] k2] eqn:Hr.
      inversion H; subst. rewrite snapshots_app in Hin.
      apply in_app_or in Hin as [Hin|Hin]; [exact (Hfirst Hin)|].
      destruct (IH _ _ _ _ _ _ Hr Hin) as [k [d [Hk [Hs Hst]]]].
      exists (S k), d.
      change (firstn (S (S k)) (ev :: evs)) with (ev :: firstn (S k) evs).
      change (firstn (S k) (ev :: evs)) with (ev :: firstn k evs).
      cbn [run_loop]. rewrite Hc, Hit.
      destruct (run_loop fromisoformat now_stamp u sd ed (firstn k evs) st1)
        as [[[a1 b1] c1] n1].
      destruct (run_loop fromisoformat now_stamp u sd ed (firstn (S k) evs) st1)
        as [[[a2 b2] c2] n2].
      cbn in Hk, Hst |- *. subst. rewrite <- app_assoc. auto.
    + inversion H; subst. exact (Hfirst Hin).
Qed.

Definition loop_effect (e : Effect) : bool :=
  match e with
  | ELog _ | ESleep | EDeleteFirst | ESnapshot _ _ => true
  | _ => false
  end.

Lemma iteration_effects u sd ed ev st fl st' e :
  iteration fromisoformat now_stamp u sd ed ev st = (fl, st', e) ->
  Forall (fun x => loop_effect x = true) e.
Proof.
  intros H. destruct ev as [| |row]; simpl in H.
  - inversion H; subst; repeat constructor.
  - inversion H; subst; repeat constructor.
  - destruct (truthy (date row)).
    + destruct (fromisoformat _) as [t|].
      2:{ inversion H; subst; repeat constructor. }
      destruct (update_min t _) as [mn|].
      2:{ inversion H; subst; repeat constructor. }
      destruct (update_max t _) as [mx|].
      2:{ inversion H; subst; repeat constructor. }
      destruct (date_lt t sd).
      { inversion H; subst; repeat constructor. }
      destruct (date_lt ed t).
      { inversion H; subst; repeat constructor. }
      inversion H; subst.
      destruct (_ mod 10 =? 0); repeat constructor.
    + rewrite accept_eq in H. inversion H; subst.
      destruct (_ mod 10 =? 0); repeat constructor.
Qed.

Lemma run_loop_effects u sd ed evs : forall st done st' e n,
  run_loop fromisoformat now_stamp u sd ed evs st = (done, st', e, n) ->
  Forall (fun x => loop_effect x = true) e.
Proof.
  induction evs as [|ev evs IH]; intros st done st' e n H; simpl in H.
  - destruct (processed_count st <? max_tweets); inversion H; subst; constructor.
  - destruct (processed_count st <? max_tweets).
    2:{ inversion H; subst. constructor. }
    destruct (iteration fromisoformat now_stamp u sd ed ev st) as [[fl st1] e1] eqn:Hit.
    pose proof (iteration_effects _ _ _ _ _ _ _ _ Hit) as He1.
    destruct fl.
    + destruct (run_loop fromisoformat now_stamp u sd ed evs st1)
        as [[[d2 st2] e2] k] eqn:Hr.
      inversion H; subst. apply Forall_app. split; eauto.
    + inversion H; subst. exact He1.
Qed.

Lemma json_writes_app (a b : list Effect) :
  json_writes (a ++ b) = json_writes a ++ json_writes b.
Proof.
  induction a as [|x a IH]; [reflexivity|].
  destruct x; simpl; rewrite ?IH; reflexivity.
Qed.

Lemma loop_effects_no_json (e : list Effect) :
  Forall (fun x => loop_effect x = true) e -> json_writes e = [].
Proof.
  induction 1 as [|x e Hx _ IH]; [reflexivity|].
  destruct x; simpl in *; try discriminate; auto.
Qed.

End LoopFacts.

Section SaveFacts.

Variable fromisoformat : string -> option datetime.

Lemma save_to_excel_no_snapshot io j o rows :
  snapshots (save_to_excel fromisoformat io j o rows) = []
  /\ json_writes (save_to_excel fromisoformat io j o rows) = [].
Proof.
  unfold save_to_excel, csv_fallback.
  destruct (json_read_ok io); simpl; [|auto].
  repeat match goal with
         | |- context [match ?x with _ => _ end] => destruct x; simpl
         end; auto.
Qed.

Lemma option_string_eqb_eq a b : option_string_eqb a b = true <-> a = b.
Proof.
  destruct a as [x|], b as [y|]; simpl; split; intros H; try discriminate; auto.
  - apply String.eqb_eq in H. now subst.
  - inversion H; subst. apply String.eqb_refl.
Qed.

Lemma drop_duplicates_go_nodup seen df :
  NoDup (map row_url (drop_duplicates_go seen df))
  /\ forall x, In x (map row_url (drop_duplicates_go seen df)) -> ~ In x seen.
Proof.
  revert seen. induction df as [|[r c] df IH]; intros seen; simpl.
  - split; [constructor|tauto].
  - destruct (existsb (option_string_eqb (url r)) seen) eqn:He.
    + apply IH.
    + destruct (IH (url r :: seen)) as [Hn Hi]. simpl. split.
      * constructor; auto. intros Hin. apply (Hi _ Hin). now left.
      * intros x [<-|Hx] Hs.
        -- unfold row_url in Hs; simpl in Hs.
           assert (existsb (option_string_eqb (url r)) seen = true) as Ht.
           { apply existsb_exists. exists (url r). split; auto.
             apply option_string_eqb_eq. reflexivity. }
           congruence.
        -- apply (Hi _ Hx). now right.
Qed.

Lemma drop_duplicates_go_in seen df x :
  In x (drop_duplicates_go seen df)
  <-> exists pre post, df = pre ++ x :: post
       /\ ~ In (row_url x) (seen ++ map row_url pre).
Proof.
  revert seen. induction df as [|[r c] df IH]; intros seen; simpl.
  - split; [tauto|]. intros [pre [post [H _]]]. destruct pre; discriminate.
  - assert (Hs : existsb (option_string_eqb (url r)) seen = true <-> In (url r) seen).
    { rewrite existsb_exists. split.
      - intros [y [Hy E]]. apply option_string_eqb_eq in E. subst. exact Hy.
      - intros Hy. exists (url r). split; [exact Hy|]. apply option_string_eqb_eq. reflexivity. }
    destruct (existsb (option_string_eqb (url r)) seen) eqn:He.
    + assert (Hin : In (url r) seen) by (apply Hs; reflexivity).
      rewrite IH. split.
      * intros [pre [post [-> Hn]]]. exists ((r, c) :: pre), post. split; [reflexivity|].
        simpl. rewrite in_app_iff. simpl. intros [H|[H|H]]; apply Hn; rewrite in_app_iff.
        -- left; exact H.
        -- left. unfold row_url in *; simpl in *. rewrite <- H. exact Hin.
        -- right; exact H.
      * intros [[|p pre] [post [E Hn]]].
        -- simpl in E. inversion E; subst. exfalso. apply Hn. rewrite app_nil_r.
           exact Hin.
        -- simpl in E. inversion E; subst. exists pre, post. split; [reflexivity|].
           intros H. apply Hn. rewrite in_app_iff in *. simpl. tauto.
    + assert (Hnin : ~ In (url r) seen) by (intros H; apply Hs in H; discriminate).
      simpl. rewrite IH. split.
      * intros [<-|[pre [post [-> Hn]]]].
        -- exists [], df. split; [reflexivity|]. rewrite app_nil_r. exact Hnin.
        -- exists ((r, c) :: pre), post. split; [reflexivity|].
           intros H. apply Hn. simpl in *. rewrite in_app_iff in *. simpl in *. tauto.
      * intros [[|p pre] [post [E Hn]]].
        -- simpl in E. inversion E; subst. left. reflexivity.
        -- simpl in E. inversion E; subst. right. exists pre, post. split; [reflexivity|].
           intros H. apply Hn. simpl in *. rewrite in_app_iff in *. simpl in *. tauto.
Qed.

Lemma drop_duplicates_nodup df : NoDup (map row_url (drop_duplicates df)).
Proof. apply drop_duplicates_go_nodup. Qed.

Lemma save_to_excel_excel io j o rows f df :
  In (EWriteExcel f df) (save_to_excel fromisoformat io j o rows) ->
  exists df1, convert_dates fromisoformat (read_frame rows) = Some df1
              /\ df = drop_duplicates df1 /\ f = o.
Proof.
  unfold save_to_excel, csv_fallback.
  destruct (json_read_ok io); simpl; [|intros [H|[H|[H|[]]]]; discriminate].
  destruct (convert_dates fromisoformat (read_frame rows)) as [df1|] eqn:Hc.
  - destruct (excel_write_ok io).
    + intros [H|[H|[]]]; [|discriminate]. inversion H; subst. eauto.
    + destruct (csv_write_ok io); simpl; intros H;
        repeat (destruct H as [H|H]; [discriminate|]); destruct H.
  - destruct (csv_write_ok io); simpl; intros H;
      repeat (destruct H as [H|H]; [discriminate|]); destruct H.
Qed.

End SaveFacts.

(** ** Claims *)

(** C10: intermediate snapshots are cumulative.  In the effect trace of a
    run of [fetch_tweets], each snapshot is written by the iteration of
    some answer of the page and holds every record accumulated up to and
    including that answer, in the order they were appended; so each
    snapshot's list of records is a prefix of every later snapshot's list,
    and of the list written to the final JSON file.  (The result of
    [run_loop] is [(((done, state), effects), count)]; [d] is what the
    iteration of answer [k] adds to the trace.) *)
Theorem snapshots_cumulative
  (fromisoformat strptime_ymd : string -> option datetime)
  (strftime_ymd : datetime -> string) (now_ymd : string)
  (now_stamp : Z -> string) io user_url start_date end_date evs :
  let eff := snd (fetch_tweets fromisoformat strptime_ymd strftime_ymd now_ymd
                    now_stamp io user_url start_date end_date evs) in
  (forall s, In s (snapshots eff) ->
     exists sd ed k d,
       strptime_ymd start_date = Some sd /\ strptime_ymd end_date = Some ed
       /\ snd (fst (run_loop fromisoformat now_stamp (last_segment user_url) sd ed
                     (firstn (S k) evs) init_state))
          = snd (fst (run_loop fromisoformat now_stamp (last_segment user_url) sd ed
                        (firstn k evs) init_state)) ++ d
       /\ In s (snapshots d)
       /\ s = tweets_data (snd (fst (fst (run_loop fromisoformat now_stamp
                                             (last_segment user_url) sd ed
                                             (firstn (S k) evs) init_state)))))
  /\ StronglySorted is_prefix (snapshots eff)
  /\ forall f rows, In (f, rows) (json_writes eff) ->
       Forall (fun s => is_prefix s rows) (snapshots eff).
Proof.
  unfold fetch_tweets; cbv zeta.
  destruct (strptime_ymd start_date) as [sd|];
    [|split; [simpl; tauto|split; [constructor|simpl; tauto]]].
  destruct (strptime_ymd end_date) as [ed|];
    [|split; [simpl; tauto|split; [constructor|simpl; tauto]]].
  destruct (run_loop fromisoformat now_stamp (last_segment user_url) sd ed evs init_state)
    as [[[done st] e] n] eqn:Hr.
  destruct (run_loop_data _ _ _ _ _ _ _ _ _ _ _ Hr) as [_ [Hf Hs]].
  pose proof (loop_effects_no_json _ (run_loop_effects _ _ _ _ _ _ _ _ _ _ _ Hr)) as Hj.
  pose proof (fun s => run_loop_snapshot_written fromisoformat now_stamp _ _ _ _ _ _ _ _ _ s Hr) as Hw.
  destruct (save_to_excel_no_snapshot fromisoformat io
             (cur_filename strftime_ymd now_ymd (last_segment user_url) st ++ ".json")
             (cur_filename strftime_ymd now_ymd (last_segment user_url) st ++ ".xlsx")
             (tweets_data st)) as [Hs2 Hj2].
  remember (save_to_excel fromisoformat io _ _ (tweets_data st)) as sv eqn:Hsv.
  remember (cur_filename strftime_ymd now_ymd (last_segment user_url) st) as cur.
  assert (Hw' : forall s, In s (snapshots e) ->
            exists k d,
              snd (fst (run_loop fromisoformat now_stamp (last_segment user_url) sd ed
                            (firstn (S k) evs) init_state))
              = snd (fst (run_loop fromisoformat now_stamp (last_segment user_url) sd ed
                               (firstn k evs) init_state)) ++ d
              /\ In s (snapshots d)
              /\ s = tweets_data (snd (fst (fst (run_loop fromisoformat now_stamp
                                                    (last_segment user_url) sd ed
                                                    (firstn (S k) evs) init_state))))).
  { intros s Hin. exact (Hw s Hin). }
  destruct done; simpl;
    rewrite ?snapshots_app, ?json_writes_app, Hj; simpl;
    rewrite ?Hs2, ?Hj2, ?app_nil_r.
  - split; [|split; [exact Hs|]].
    + intros s Hin. destruct (Hw' s Hin) as [k [d Hk]]. exists sd, ed, k, d. auto.
    + intros f rows Hin. simpl in Hin.
      destruct Hin as [Hin|[]]. inversion Hin; subst.
      eapply Forall_impl; [|exact Hf]. intros s [_ Hp]. exact Hp.
  - split; [|split; [exact Hs|]].
    + intros s Hin. destruct (Hw' s Hin) as [k [d Hk]]. exists sd, ed, k, d. auto.
    + intros f rows Hin. simpl in Hin. destruct Hin.
Qed.

Lemma excel_writes_app (a b : list Effect) :
  excel_writes (a ++ b) = excel_writes a ++ excel_writes b.
Proof.
  induction a as [|x a IH]; [reflexivity|].
  destruct x; simpl; rewrite ?IH; reflexivity.
Qed.

Lemma loop_effects_no_excel (e : list Effect) :
  Forall (fun x => loop_effect x = true) e -> excel_writes e = [].
Proof.
  induction 1 as [|x e Hx _ IH]; [reflexivity|].
  destruct x; simpl in *; try discriminate; auto.
Qed.

Lemma excel_writes_in f df eff :
  In (f, df) (excel_writes eff) -> In (EWriteExcel f df) eff.
Proof.
  induction eff as [|x eff IH]; simpl; [tauto|].
  destruct x; simpl; try (intros H; right; auto; fail).
  intros [H|H]; [inversion H; subst; left; auto|right; auto].
Qed.

Lemma convert_dates_fst fromisoformat df df1 :
  convert_dates fromisoformat df = Some df1 -> map fst df1 = map fst df.
Proof.
  revert df1. induction df as [|[r c] df IH]; intros df1 H; simpl in H.
  - inversion H; subst. reflexivity.
  - destruct (convert_cell fromisoformat c), (convert_dates fromisoformat df) as [df2|];
      try discriminate.
    inversion H; subst. simpl. f_equal. apply IH. reflexivity.
Qed.

Lemma read_frame_fst rows : map fst (read_frame rows) = rows.
Proof. unfold read_frame. rewrite map_map. simpl. apply map_id. Qed.

(** C1 (amended): deduplication by permalink is applied only to the
    spreadsheet export.  The JSON file of a run is written once, with the
    records accumulated by the loop as they are.  A spreadsheet write holds
    the frame read back from that file, its dates converted, with
    [drop_duplicates(subset=["url"])] applied: a record is kept exactly
    when no earlier record of the frame has its [url], so the written rows
    have pairwise distinct [url] values. *)
Theorem spreadsheet_urls_distinct
  (fromisoformat strptime_ymd : string -> option datetime)
  (strftime_ymd : datetime -> string) (now_ymd : string)
  (now_stamp : Z -> string) io user_url start_date end_date evs :
  let eff := snd (fetch_tweets fromisoformat strptime_ymd strftime_ymd now_ymd
                    now_stamp io user_url start_date end_date evs) in
  (forall jf rows, In (jf, rows) (json_writes eff) ->
     exists sd ed st e n,
       strptime_ymd start_date = Some sd /\ strptime_ymd end_date = Some ed
       /\ run_loop fromisoformat now_stamp (last_segment user_url) sd ed evs init_state
          = (true, st, e, n)
       /\ json_writes eff = [(jf, rows)] /\ rows = tweets_data st)
  /\ (forall f df, In (f, df) (excel_writes eff) ->
       exists jf rows df1,
         json_writes eff = [(jf, rows)]
         /\ convert_dates fromisoformat (read_frame rows) = Some df1
         /\ map fst df1 = rows
         /\ df = drop_duplicates df1
         /\ NoDup (map row_url df)
         /\ forall x, In x df <->
              exists pre post, df1 = pre ++ x :: post /\ ~ In (row_url x) (map row_url pre)).
Proof.
  unfold fetch_tweets; cbv zeta.
  destruct (strptime_ymd start_date) as [sd|]; [|split; simpl; intros ? ? []].
  destruct (strptime_ymd end_date) as [ed|]; [|split; simpl; intros ? ? []].
  destruct (run_loop fromisoformat now_stamp (last_segment user_url) sd ed evs init_state)
    as [[[done st] e] n] eqn:Hr.
  pose proof (run_loop_effects _ _ _ _ _ _ _ _ _ _ _ Hr) as Hle.
  remember (cur_filename strftime_ymd now_ymd (last_segment user_url) st) as cur.
  remember (save_to_excel fromisoformat io (cur ++ ".json") (cur ++ ".xlsx") (tweets_data st))
    as sv eqn:Hsv.
  destruct done; simpl.
  2:{ rewrite (loop_effects_no_json _ Hle), (loop_effects_no_excel _ Hle).
        split; simpl; intros ? ? []. }
  assert (HJ : json_writes (e ++ EWriteJson (cur ++ ".json") (tweets_data st) :: ELog LInfo :: sv)
               = [((cur ++ ".json")%string, tweets_data st)]).
  { rewrite json_writes_app, (loop_effects_no_json _ Hle). simpl.
    rewrite Hsv, (proj2 (save_to_excel_no_snapshot fromisoformat io _ _ _)). reflexivity. }
  rewrite HJ. split.
  - intros jf rows [Hin|[]]. inversion Hin; subst.
    exists sd, ed, st, e, n. auto.
  - intros f df. rewrite excel_writes_app, (loop_effects_no_excel _ Hle). simpl.
    intros Hin. apply excel_writes_in in Hin. rewrite Hsv in Hin.
    destruct (save_to_excel_excel _ _ _ _ _ _ _ Hin) as [df1 [Hc [-> _]]].
    exists (cur ++ ".json")%string, (tweets_data st), df1.
    split; [reflexivity|]. split; [exact Hc|].
    split; [rewrite (convert_dates_fst _ _ _ Hc); apply read_frame_fst|].
    split; [reflexivity|]. split; [apply drop_duplicates_nodup|].
    intros x. exact (drop_duplicates_go_in [] df1 x).
Qed.

Lemma spreadsheet_urls_distinct_witness :
  excel_writes (snd (sample_run io_ok dup_page)) <> []
  /\ Forall (fun p => NoDup (map row_url (snd p)))
       (excel_writes (snd (sample_run io_ok dup_page))).
Proof.
  split; [vm_compute; discriminate|].
  apply Forall_forall. intros [f df] Hin.
  destruct (proj2 (spreadsheet_urls_distinct iso_fromisoformat iso_strptime iso_strftime
                     "2026-10-17" stamp io_ok "https://x.com/elonmusk" "2023-01-01"
                     "2023-01-10" dup_page) f df Hin)
    as [jf [rows [df1 [_ [_ [_ [_ [Hn _]]]]]]]].
  exact Hn.
Defined.

(** C1, as stated, fails: the JSON file of a run receives the accumulated
    records as they are; on a page that yields the same post twice it
    holds two records with the same [url]. *)
Lemma json_output_has_duplicate_urls :
  ~ (forall f rows, In (f, rows) (json_writes (snd (sample_run io_ok dup_page))) ->
     NoDup (map url rows)).
Proof.
  intros H.
  assert (Hj : json_writes (snd (sample_run io_ok dup_page))
               = [("data/elonmusk@2022-12-31_2023-01-05.json"%string, [r_jan5; r_jan5])])
    by (vm_compute; reflexivity).
  rewrite Hj in H.
  specialize (H _ _ (or_introl eq_refl)).
  simpl in H. inversion H as [|? ? Hn _]. apply Hn. left. reflexivity.
Qed.

Lemma run_loop_no_tweet fromisoformat now_stamp u sd ed n st :
  processed_count st < max_tweets ->
  run_loop fromisoformat now_stamp u sd ed (repeat NoTweet n) st
  = (false, st, concat (repeat [ELog LWarning; ESleep] n), n).
Proof.
  intros Hc. induction n as [|n IH]; simpl.
  - apply Z.ltb_lt in Hc. now rewrite Hc.
  - pose proof Hc as Hc'. apply Z.ltb_lt in Hc'. rewrite Hc', IH. reflexivity.
Qed.

(** C3 (the loop is not bounded by [max_tweets]): while the page yields
    no tweet, [_get_first_tweet] returning [None] makes the body [continue]
    without incrementing [processed_count]; after any number [n] of such
    iterations the loop has run its body [n] times and has not
    terminated. *)
Theorem loop_unbounded_without_tweets fromisoformat now_stamp u sd ed (n : nat) :
  run_loop fromisoformat now_stamp u sd ed (repeat NoTweet n) init_state
  = (false, init_state, concat (repeat [ELog LWarning; ESleep] n), n).
Proof. apply run_loop_no_tweet. reflexivity. Qed.

(** C4 (no snapshot when the tenth processed record is skipped): nine
    posts in range and a tenth dated after [end_date] bring
    [processed_count] to 10 without any snapshot, and the next post in
    range brings it to 11, still without one. *)
Theorem tenth_record_skipped_no_snapshot :
  (let '(done, st, eff, k) := sample_loop tenth_skipped_page in
   done = false /\ k = 10%nat /\ processed_count st = 10 /\ snapshots eff = [])
  /\ (let '(done, st, eff, k) := sample_loop (tenth_skipped_page ++ [Tweet r_jan5]) in
      done = false /\ k = 11%nat /\ processed_count st = 11 /\ snapshots eff = []).
Proof. vm_compute. repeat split. Qed.

(** C5: a missing credential is fatal at startup.  When
    [TWITTER_AUTH_TOKEN] is unset, empty or the placeholder, [__init__]
    raises (after starting the browser), the [__main__] block only logs the
    error: no search is issued and no file is written. *)
Theorem missing_token_fatal
  (fromisoformat strptime_ymd : string -> option datetime)
  (strftime_ymd : datetime -> string) (now_ymd : string)
  (now_stamp : Z -> string) (env : string -> option string) io evs :
  env "TWITTER_AUTH_TOKEN"%string = None
  \/ env "TWITTER_AUTH_TOKEN"%string = Some ""%string
  \/ env "TWITTER_AUTH_TOKEN"%string = Some placeholder_token ->
  fst (init env) = None
  /\ main fromisoformat strptime_ymd strftime_ymd now_ymd now_stamp env io evs
     = [ELog LInfo; EStartChrome; ELog LError; ELog LError]
  /\ Forall (fun e => is_file_write e = false)
       (main fromisoformat strptime_ymd strftime_ymd now_ymd now_stamp env io evs).
Proof.
  intros Htok.
  assert (Hs : set_token (env "TWITTER_AUTH_TOKEN"%string) = None).
  { destruct Htok as [-> | [-> | ->]]; reflexivity. }
  assert (Hi : init env = (None, [ELog LInfo; EStartChrome])).
  { unfold init. simpl. rewrite Hs. reflexivity. }
  unfold main. rewrite Hi. simpl. repeat split; repeat constructor.
Qed.

Lemma missing_token_fatal_witness :
  ((fun _ : string => @None string) "TWITTER_AUTH_TOKEN"%string = None
   \/ (fun _ : string => @None string) "TWITTER_AUTH_TOKEN"%string = Some ""%string
   \/ (fun _ : string => @None string) "TWITTER_AUTH_TOKEN"%string = Some placeholder_token)
  /\ fst (init (fun _ => None)) = None
  /\ main iso_fromisoformat iso_strptime iso_strftime "2026-10-17" stamp
       (fun _ => None) io_ok dup_page = [ELog LInfo; EStartChrome; ELog LError; ELog LError]
  /\ Forall (fun e => is_file_write e = false)
       (main iso_fromisoformat iso_strptime iso_strftime "2026-10-17" stamp
          (fun _ => None) io_ok dup_page).
Proof.
  assert (H : (fun _ : string => @None string) "TWITTER_AUTH_TOKEN"%string = None)
    by reflexivity.
  split; [left; exact H|].
  exact (missing_token_fatal iso_fromisoformat iso_strptime iso_strftime "2026-10-17"
           stamp (fun _ => None) io_ok dup_page (or_introl H)).
Defined.

(** C6: a non-empty date string that [fromisoformat] rejects: the
    [ValueError] is logged as a warning, the article is deleted and the
    loop continues; the accumulated list is unchanged (only
    [processed_count] moves). *)
Theorem malformed_date_skipped fromisoformat now_stamp u sd ed row st d :
  date row = Some d -> d <> ""%string ->
  fromisoformat (py_replace "Z" "+00:00" d) = None ->
  iteration fromisoformat now_stamp u sd ed (Tweet row) st
  = (Next, set_count st (processed_count st + 1), [ELog LWarning; EDeleteFirst])
  /\ tweets_data (set_count st (processed_count st + 1)) = tweets_data st.
Proof.
  intros Hd Hne Hp. split; [|reflexivity].
  unfold iteration. rewrite Hd. simpl.
  apply String.eqb_neq in Hne. rewrite Hne. simpl. rewrite Hp. reflexivity.
Qed.

Lemma malformed_date_skipped_witness :
  (date r_bad_date = Some "not-a-date"%string
   /\ "not-a-date"%string <> ""%string
   /\ iso_fromisoformat (py_replace "Z" "+00:00" "not-a-date") = None)
  /\ iteration iso_fromisoformat stamp "elonmusk" (mkdt 2023 1 1 0 0 0 0 None)
       (mkdt 2023 1 10 0 0 0 0 None) (Tweet r_bad_date) init_state
     = (Next, set_count init_state (processed_count init_state + 1),
        [ELog LWarning; EDeleteFirst])
  /\ tweets_data (set_count init_state (processed_count init_state + 1))
     = tweets_data init_state.
Proof.
  assert (H1 : date r_bad_date = Some "not-a-date"%string) by reflexivity.
  assert (H2 : "not-a-date"%string <> ""%string) by discriminate.
  assert (H3 : iso_fromisoformat (py_replace "Z" "+00:00" "not-a-date") = None)
    by (vm_compute; reflexivity).
  split; [auto|].
  exact (malformed_date_skipped iso_fromisoformat stamp "elonmusk"
           (mkdt 2023 1 1 0 0 0 0 None) (mkdt 2023 1 10 0 0 0 0 None)
           r_bad_date init_state _ H1 H2 H3).
Defined.

(** C9: a record whose date is missing ([None]) or empty bypasses the
    date-range filter: whatever [start_date] and [end_date] are, it is
    appended, and the observed [min_date] and [max_date] are unchanged. *)
Theorem dateless_record_appended fromisoformat now_stamp u sd ed row st :
  date row = None \/ date row = Some ""%string ->
  let '(fl, st', _) := iteration fromisoformat now_stamp u sd ed (Tweet row) st in
  fl = Next /\ tweets_data st' = tweets_data st ++ [row]
  /\ min_date st' = min_date st /\ max_date st' = max_date st.
Proof.
  intros Hd.
  assert (Ht : truthy (date row) = false) by (destruct Hd as [-> | ->]; reflexivity).
  unfold iteration. rewrite Ht, accept_eq. simpl. auto.
Qed.

Lemma dateless_record_appended_witness :
  (date r_no_date = None \/ date r_no_date = Some ""%string)
  /\ (let '(fl, st', _) := iteration iso_fromisoformat stamp "elonmusk"
                            (mkdt 2023 1 1 0 0 0 0 None) (mkdt 2023 1 10 0 0 0 0 None)
                            (Tweet r_no_date) init_state in
      fl = Next /\ tweets_data st' = tweets_data init_state ++ [r_no_date]
      /\ min_date st' = min_date init_state /\ max_date st' = max_date init_state).
Proof.
  assert (H : date r_no_date = None \/ date r_no_date = Some ""%string)
    by (right; reflexivity).
  split; [exact H|].
  exact (dateless_record_appended iso_fromisoformat stamp "elonmusk"
           (mkdt 2023 1 1 0 0 0 0 None) (mkdt 2023 1 10 0 0 0 0 None)
           r_no_date init_state H).
Defined.

(** C2 (a date before [start_date] does not always stop the loop):
    after an aware date, a post dated
    [2022-12-31] without offset parses to a naive value before
    [start_date], yet the loop does not stop: comparing it with
    [min_date] raises [TypeError], the handler deletes the article and the
    loop goes on to the next post. *)
Lemma naive_date_before_start_does_not_stop :
  iso_fromisoformat (py_replace "Z" "+00:00" "2022-12-31")
    = Some (mkdt 2022 12 31 0 0 0 0 None)
  /\ date_lt (mkdt 2022 12 31 0 0 0 0 None) day_start = true
  /\ (let '(done, st, _, k) :=
        sample_loop [Tweet r_jan5; Tweet r_naive_old; Tweet r_jan5] in
      done = false /\ k = 3%nat /\ tweets_data st = [r_jan5; r_jan5]).
Proof. vm_compute. repeat split. Qed.

(** ** [str.replace] on the spreadsheet path *)

Module ReplaceFacts.

Definition xlsx : list ascii := list_ascii_of_string ".xlsx".
Definition csv : list ascii := list_ascii_of_string ".csv".

Lemma strip_prefix_app p s r : strip_prefix p s = Some r -> s = p ++ r.
Proof.
  revert s. induction p as [|c p IH]; intros s H; simpl in H.
  - now inversion H.
  - destruct s as [|d s]; [discriminate|].
    destruct (Ascii.eqb c d) eqn:Hc; [|discriminate].
    apply Ascii.eqb_eq in Hc. subst. simpl. f_equal. auto.
Qed.

Lemma strip_prefix_long p x y :
  (length p <= length x)%nat ->
  strip_prefix p (x ++ y) = option_map (fun r => r ++ y) (strip_prefix p x).
Proof.
  revert x. induction p as [|c p IH]; intros x Hl; simpl; [reflexivity|].
  destruct x as [|d x]; simpl in Hl; [lia|]. simpl.
  destruct (Ascii.eqb c d); [apply IH; lia|reflexivity].
Qed.

Lemma replace_go_fuel old new : old <> [] ->
  forall n m s, (length s <= n)%nat -> (length s <= m)%nat ->
  replace_go old new n s = replace_go old new m s.
Proof.
  intros Hold. induction n as [|n IH]; intros m s Hn Hm.
  - destruct s; simpl in Hn; [|lia]. destruct m; reflexivity.
  - destruct m as [|m]; [destruct s; simpl in Hm; [reflexivity|lia]|].
    destruct s as [|c s]; [reflexivity|]. cbn [replace_go].
    destruct (strip_prefix old (c :: s)) as [l|] eqn:Hs.
    + apply strip_prefix_app in Hs.
      destruct old as [|o old]; [congruence|]. f_equal. apply IH.
      * apply (f_equal (@length ascii)) in Hs. rewrite length_app in Hs.
        simpl in Hs, Hn. lia.
      * apply (f_equal (@length ascii)) in Hs. rewrite length_app in Hs.
        simpl in Hs, Hm. lia.
    + f_equal. apply IH; simpl in Hn, Hm; lia.
Qed.

(** [".xlsx"] has no border: no occurrence straddles its end. *)
Lemma strip_xlsx_app x :
  x <> [] -> strip_prefix xlsx x = None -> strip_prefix xlsx (x ++ xlsx) = None.
Proof.
  intros Hx Hn.
  destruct x as [|a1 [|a2 [|a3 [|a4 [|a5 x]]]]]; [congruence| | | | |].
  5:{ rewrite strip_prefix_long by (simpl; lia). now rewrite Hn. }
  all: cbn -[Ascii.eqb];
    repeat match goal with
           | |- context [Ascii.eqb ?c ?a] => is_var a; destruct (Ascii.eqb c a)
           end; reflexivity.
Qed.

Lemma replace_go_snoc_xlsx : forall n s, (length s + 5 <= n)%nat ->
  replace_go xlsx csv n (s ++ xlsx) = replace_go xlsx csv n s ++ csv.
Proof.
  induction n as [|n IH]; intros s Hn; [lia|].
  destruct s as [|c s].
  - simpl. destruct n as [|n]; reflexivity.
  - change ((c :: s) ++ xlsx) with (c :: (s ++ xlsx)).
    cbn [replace_go].
    change (c :: s ++ xlsx) with ((c :: s) ++ xlsx).
    destruct (strip_prefix xlsx (c :: s)) as [rest|] eqn:Hs.
    + pose proof (strip_prefix_app _ _ _ Hs) as He.
      assert (Hl : (length rest + 5 <= n)%nat).
      { apply (f_equal (@length ascii)) in He. rewrite length_app in He.
        simpl in He, Hn. unfold xlsx in He. simpl in He. lia. }
      rewrite He at 1. rewrite <- app_assoc.
      replace (strip_prefix xlsx (xlsx ++ rest ++ xlsx)) with (Some (rest ++ xlsx))
        by (symmetry; rewrite strip_prefix_long by (simpl; lia); reflexivity).
      rewrite IH by exact Hl. now rewrite app_assoc.
    + rewrite strip_xlsx_app by (congruence || exact Hs).
      simpl. f_equal. apply IH. simpl in Hn. lia.
Qed.

Lemma list_ascii_of_string_app a b :
  list_ascii_of_string (a ++ b) = list_ascii_of_string a ++ list_ascii_of_string b.
Proof. induction a as [|c a IH]; simpl; [reflexivity|]. now rewrite IH. Qed.

Lemma string_of_list_ascii_app a b :
  string_of_list_ascii (a ++ b) = (string_of_list_ascii a ++ string_of_list_ascii b)%string.
Proof. induction a as [|c a IH]; simpl; [reflexivity|]. now rewrite IH. Qed.

Lemma py_replace_xlsx_suffix cur :
  py_replace ".xlsx" ".csv" (cur ++ ".xlsx") = (py_replace ".xlsx" ".csv" cur ++ ".csv")%string.
Proof.
  unfold py_replace. rewrite list_ascii_of_string_app.
  change (list_ascii_of_string ".xlsx") with xlsx.
  change (list_ascii_of_string ".csv") with csv.
  rewrite length_app.
  rewrite replace_go_snoc_xlsx by (unfold xlsx; simpl; lia).
  rewrite string_of_list_ascii_app. f_equal. f_equal.
  apply replace_go_fuel; [discriminate| |]; unfold xlsx; simpl; lia.
Qed.

Lemma csv_path_not_json cur x : (x ++ ".csv")%string <> (cur ++ ".json")%string.
Proof.
  intros H. apply (f_equal list_ascii_of_string) in H.
  rewrite !list_ascii_of_string_app in H.
  apply (f_equal (@rev ascii)) in H. rewrite !rev_app_distr in H.
  simpl in H. discriminate.
Qed.

Lemma xlsx_path_not_json cur x : (x ++ ".xlsx")%string <> (cur ++ ".json")%string.
Proof.
  intros H. apply (f_equal list_ascii_of_string) in H.
  rewrite !list_ascii_of_string_app in H.
  apply (f_equal (@rev ascii)) in H. rewrite !rev_app_distr in H.
  simpl in H. discriminate.
Qed.

End ReplaceFacts.

Lemma csv_writes_excel_writes_in_fallback io o df :
  excel_writes (csv_fallback io o df) = []
  /\ csv_writes (csv_fallback io o df)
     = if csv_write_ok io then [(py_replace ".xlsx" ".csv" o, df)] else [].
Proof. unfold csv_fallback. destruct (csv_write_ok io); simpl; auto. Qed.

(** C7 (the CSV fallback is not always deduplicated): when the
    spreadsheet export fails on the empty
    date of a post without a [time] element, the CSV written instead holds
    the records as read from the JSON file, with the repeated post twice. *)
Lemma csv_fallback_not_deduplicated :
  excel_writes (snd (sample_run io_ok undated_dup_page)) = []
  /\ csv_writes (snd (sample_run io_ok undated_dup_page))
     = [("data/elonmusk@2022-12-31_2023-01-05.csv"%string,
         read_frame [r_jan5; r_jan5; r_no_date])]
  /\ ~ NoDup (map row_url (read_frame [r_jan5; r_jan5; r_no_date])).
Proof.
  split; [vm_compute; reflexivity|].
  split; [vm_compute; reflexivity|].
  simpl. intros H. inversion H as [|? ? Hn _]. apply Hn. left. reflexivity.
Qed.

(** ** Lemmas on the output name *)

Section NameFacts.

Variable fromisoformat : string -> option datetime.
Variable now_stamp : Z -> string.

Lemma iteration_minmax u sd ed ev st fl st' e :
  iteration fromisoformat now_stamp u sd ed ev st = (fl, st', e) ->
  (min_date st', max_date st')
  = match parsed_date fromisoformat ev with
    | Some t => minmax_step t (min_date st, max_date st)
    | None => (min_date st, max_date st)
    end.
Proof.
  intros H. destruct ev as [| |row]; simpl in H |- *.
  - inversion H; subst; reflexivity.
  - inversion H; subst; reflexivity.
  - destruct (truthy (date row)).
    + destruct (fromisoformat _) as [t|].
      2:{ inversion H; subst; reflexivity. }
      unfold minmax_step. simpl.
      destruct (update_min t (min_date st)) as [mn|].
      2:{ inversion H; subst; reflexivity. }
      simpl in H. destruct (update_max t (max_date st)) as [mx|].
      2:{ inversion H; subst; reflexivity. }
      destruct (date_lt t sd).
      { inversion H; subst; reflexivity. }
      destruct (date_lt ed t).
      { inversion H; subst; reflexivity. }
      inversion H; subst; reflexivity.
    + rewrite accept_eq in H. inversion H; subst; reflexivity.
Qed.

Lemma minmax_step_inv P t mm :
  minmax_inv P mm -> minmax_inv (P ++ [t]) (minmax_step t mm).
Proof.
  destruct P as [|t0 P]; simpl.
  - intros ->. exists t, t. unfold minmax_step. simpl.
    repeat split; auto; destruct H as [<-|[]]; lia.
  - intros [mn [mx [-> [Hmn [Hmx [Amn [Amx Hb]]]]]]].
    unfold minmax_step, update_min, update_max, dt_gt, dt_lt. simpl.
    assert (Hin : forall d, In d (P ++ [t]) <-> In d P \/ d = t).
    { intros d. rewrite in_app_iff. simpl. intuition. }
    rewrite Amn, Amx.
    destruct (Bool.eqb (aware t) (aware t0)) eqn:Ea.
    + apply Bool.eqb_prop in Ea.
      rewrite Ea, Bool.eqb_reflx.
      exists (if utc_key t <? utc_key mn then t else mn),
             (if utc_key mx <? utc_key t then t else mx).
      split; [destruct (utc_key t <? utc_key mn), (utc_key mx <? utc_key t); reflexivity|].
      refine (conj _ (conj _ (conj _ (conj _ _)))).
      * destruct (utc_key t <? utc_key mn); rewrite in_app_iff; simpl; tauto.
      * destruct (utc_key mx <? utc_key t); rewrite in_app_iff; simpl; tauto.
      * destruct (utc_key t <? utc_key mn); auto.
      * destruct (utc_key mx <? utc_key t); auto.
      * intros d Hd Ad. destruct Hd as [<-|Hd].
        { specialize (Hb t0 (or_introl eq_refl) eq_refl).
          destruct (Z.ltb_spec (utc_key t) (utc_key mn));
          destruct (Z.ltb_spec (utc_key mx) (utc_key t)); lia. }
        apply Hin in Hd. destruct Hd as [Hd| ->].
        { specialize (Hb d (or_intror Hd) Ad).
          destruct (Z.ltb_spec (utc_key t) (utc_key mn));
          destruct (Z.ltb_spec (utc_key mx) (utc_key t)); lia. }
        destruct (Z.ltb_spec (utc_key t) (utc_key mn));
        destruct (Z.ltb_spec (utc_key mx) (utc_key t)); lia.
    + exists mn, mx. split; [reflexivity|].
      refine (conj _ (conj _ (conj _ (conj _ _)))); auto.
      * destruct Hmn; [left; auto|right; apply Hin; auto].
      * destruct Hmx; [left; auto|right; apply Hin; auto].
      * intros d Hd Ad. destruct Hd as [<-|Hd]; [apply Hb; simpl; auto|].
        apply Hin in Hd. destruct Hd as [Hd| ->]; [apply Hb; simpl; auto|].
        rewrite Ad, Bool.eqb_reflx in Ea. discriminate.
Qed.

Lemma set_add_in x y s : In x (set_add y s) <-> In x s \/ x = y.
Proof.
  unfold set_add. destruct (existsb (String.eqb y) s) eqn:E.
  - apply existsb_exists in E as [z [Hz Ez]]. apply String.eqb_eq in Ez. subst.
    intuition (subst; auto).
  - rewrite in_app_iff. simpl. intuition.
Qed.

Lemma set_add_nodup y s : NoDup s -> NoDup (set_add y s).
Proof.
  unfold set_add. destruct (existsb (String.eqb y) s) eqn:E; [auto|].
  revert E. induction s as [|a s IH]; simpl; intros E Hnd.
  - constructor; [intros []|constructor].
  - inversion Hnd as [|? ? Ha Hs]; subst.
    apply orb_false_iff in E as [E1 E2].
    constructor.
    + rewrite in_app_iff. simpl. intros [H|[H|[]]]; [contradiction|].
      subst. rewrite String.eqb_refl in E1. discriminate.
    + auto.
Qed.

Lemma handles_of_snoc d row :
  handles_of (d ++ [row])
  = handles_of d ++ (if String.eqb (author_handle row) "" then []
                     else [clean_handle row]).
Proof.
  unfold handles_of. rewrite filter_app, map_app. simpl.
  destruct (String.eqb (author_handle row) ""); reflexivity.
Qed.

Lemma iteration_handles u sd ed ev st fl st' e :
  iteration fromisoformat now_stamp u sd ed ev st = (fl, st', e) ->
  (author_handles st' = author_handles st /\ tweets_data st' = tweets_data st)
  \/ exists row, tweets_data st' = tweets_data st ++ [row]
     /\ author_handles st'
        = if String.eqb (author_handle row) "" then author_handles st
          else set_add (clean_handle row) (author_handles st).
Proof.
  intros H. destruct ev as [| |row]; simpl in H.
  - inversion H; subst. left; auto.
  - inversion H; subst. left; auto.
  - destruct (truthy (date row)).
    + destruct (fromisoformat _) as [t|].
      2:{ inversion H; subst. left; auto. }
      destruct (update_min t _) as [mn|].
      2:{ inversion H; subst. left; auto. }
      destruct (update_max t _) as [mx|].
      2:{ inversion H; subst. left; auto. }
      destruct (date_lt t sd).
      { inversion H; subst. left; auto. }
      destruct (date_lt ed t).
      { inversion H; subst. left; auto. }
      inversion H; subst. right. exists row. simpl. auto.
    + rewrite accept_eq in H. inversion H; subst. right. exists row. simpl. auto.
Qed.

Lemma iteration_handles_inv u sd ed ev st fl st' e :
  iteration fromisoformat now_stamp u sd ed ev st = (fl, st', e) ->
  handles_inv st -> handles_inv st'.
Proof.
  unfold handles_inv. intros H [Hnd Heq].
  destruct (iteration_handles _ _ _ _ _ _ _ _ H) as [[-> ->]|[row [-> ->]]].
  - split; auto.
  - rewrite handles_of_snoc.
    destruct (String.eqb (author_handle row) "").
    + rewrite app_nil_r. split; auto.
    + split; [apply set_add_nodup; auto|].
      intros x. rewrite set_add_in, in_app_iff, Heq. simpl. intuition.
Qed.

Lemma parsed_dates_cons ev evs :
  parsed_dates fromisoformat (ev :: evs)
  = match parsed_date fromisoformat ev with Some t => [t] | None => [] end
    ++ parsed_dates fromisoformat evs.
Proof. reflexivity. Qed.

Lemma run_loop_inv u sd ed evs : forall st P done st' e n,
  run_loop fromisoformat now_stamp u sd ed evs st = (done, st', e, n) ->
  handles_inv st -> minmax_inv P (min_date st, max_date st) ->
  handles_inv st'
  /\ minmax_inv (P ++ parsed_dates fromisoformat (firstn n evs))
       (min_date st', max_date st').
Proof.
  induction evs as [|ev evs IH]; intros st P done st' e n H Hh Hm; simpl in H.
  - destruct (processed_count st <? max_tweets); inversion H; subst;
      simpl; rewrite app_nil_r; auto.
  - destruct (processed_count st <? max_tweets).
    2:{ inversion H; subst. simpl. rewrite app_nil_r. auto. }
    destruct (iteration fromisoformat now_stamp u sd ed ev st) as [[fl st1] e1] eqn:Hit.
    pose proof (iteration_handles_inv _ _ _ _ _ _ _ _ Hit Hh) as Hh1.
    assert (Hm1 : minmax_inv
                    (P ++ match parsed_date fromisoformat ev with
                          | Some t => [t] | None => [] end)
                    (min_date st1, max_date st1)).
    { rewrite (iteration_minmax _ _ _ _ _ _ _ _ Hit).
      destruct (parsed_date fromisoformat ev) as [t|].
      - apply minmax_step_inv. exact Hm.
      - rewrite app_nil_r. exact Hm. }
    destruct fl.
    + destruct (run_loop fromisoformat now_stamp u sd ed evs st1)
        as [[[d2 st2] e2] k] eqn:Hr.
      inversion H; subst.
      destruct (IH _ _ _ _ _ _ Hr Hh1 Hm1) as [Hh2 Hm2].
      split; [exact Hh2|].
      simpl firstn. rewrite parsed_dates_cons, app_assoc. exact Hm2.
    + inversion H; subst. split; [exact Hh1|].
      simpl firstn. rewrite parsed_dates_cons. simpl parsed_dates.
      rewrite app_nil_r. exact Hm1.
Qed.

Lemma nodup_singleton_set (A : list string) h :
  NoDup A -> (forall x, In x A <-> x = h) -> A = [h].
Proof.
  intros Hnd Heq. destruct A as [|a A].
  - destruct (proj2 (Heq h) eq_refl).
  - assert (a = h) by (apply Heq; left; reflexivity). subst.
    inversion Hnd as [|? ? Ha _]; subst.
    destruct A as [|b A]; [reflexivity|].
    exfalso. apply Ha. assert (b = h) by (apply Heq; right; left; reflexivity).
    subst. left. reflexivity.
Qed.

End NameFacts.

(** The names of the output files of a run of [fetch_tweets] that
    returns.  Both are [cur_filename] followed by
    [.json] (the one JSON write) or [.xlsx] (any spreadsheet write), where
    [cur_filename] is ["data/" + prefix + "@" + range].  The prefix is [h]
    when the set of cleaned handles ('@' removed) of the collected records
    is exactly [{h}], and the username segment of the URL otherwise.  With
    [P] the dates parsed from the records the loop consumed, the range is
    today's date when [P] is empty; otherwise it is [min_date + "_" +
    max_date], two elements of [P] with the timezone awareness of the first
    parsed date, which bound every date of [P] of that awareness (a date of
    the other awareness makes the comparison raise and is left out). *)
Theorem output_name
  (fromisoformat strptime_ymd : string -> option datetime)
  (strftime_ymd : datetime -> string) (now_ymd : string)
  (now_stamp : Z -> string) io user_url start_date end_date evs eff :
  fetch_tweets fromisoformat strptime_ymd strftime_ymd now_ymd now_stamp io
    user_url start_date end_date evs = (Returned, eff) ->
  exists sd ed st e n,
    strptime_ymd start_date = Some sd /\ strptime_ymd end_date = Some ed
    /\ run_loop fromisoformat now_stamp (last_segment user_url) sd ed evs init_state
       = (true, st, e, n)
    /\ cur_filename strftime_ymd now_ymd (last_segment user_url) st
       = ("data/" ++ file_prefix (last_segment user_url) st ++ "@"
          ++ date_range strftime_ymd now_ymd st)%string
    /\ json_writes eff
       = [((cur_filename strftime_ymd now_ymd (last_segment user_url) st
            ++ ".json")%string, tweets_data st)]
    /\ (forall f df, In (f, df) (excel_writes eff) ->
        f = (cur_filename strftime_ymd now_ymd (last_segment user_url) st
             ++ ".xlsx")%string)
    /\ (forall h, (forall x, In x (handles_of (tweets_data st)) <-> x = h) ->
        file_prefix (last_segment user_url) st = h)
    /\ ((forall h, ~ (forall x, In x (handles_of (tweets_data st)) <-> x = h)) ->
        file_prefix (last_segment user_url) st = last_segment user_url)
    /\ (parsed_dates fromisoformat (firstn n evs) = [] ->
        date_range strftime_ymd now_ymd st = now_ymd)
    /\ (forall t0 rest, parsed_dates fromisoformat (firstn n evs) = t0 :: rest ->
        exists mn mx,
          date_range strftime_ymd now_ymd st
          = (strftime_ymd mn ++ "_" ++ strftime_ymd mx)%string
          /\ In mn (t0 :: rest) /\ In mx (t0 :: rest)
          /\ aware mn = aware t0 /\ aware mx = aware t0
          /\ forall d, In d (t0 :: rest) -> aware d = aware t0 ->
             utc_key mn <= utc_key d <= utc_key mx).
Proof.
  unfold fetch_tweets; cbv zeta.
  destruct (strptime_ymd start_date) as [sd|]; [|discriminate].
  destruct (strptime_ymd end_date) as [ed|]; [|discriminate].
  destruct (run_loop fromisoformat now_stamp (last_segment user_url) sd ed evs init_state)
    as [[[done st] e] n] eqn:Hr.
  destruct done; [|discriminate].
  intros Heff. inversion Heff; subst eff; clear Heff.
  pose proof (run_loop_effects _ _ _ _ _ _ _ _ _ _ _ Hr) as Hle.
  assert (Hh0 : handles_inv init_state).
  { split; [constructor|]. intros x. simpl. tauto. }
  assert (Hm0 : minmax_inv [] (min_date init_state, max_date init_state))
    by reflexivity.
  destruct (run_loop_inv _ _ _ _ _ _ _ _ _ _ _ _ Hr Hh0 Hm0) as [[Hnd Heq] Hm].
  rewrite app_nil_l in Hm.
  exists sd, ed, st, e, n.
  split; [reflexivity|]. split; [reflexivity|]. split; [exact Hr|].
  split; [reflexivity|].
  split.
  { simpl. rewrite json_writes_app, (loop_effects_no_json _ Hle). simpl.
    rewrite (proj2 (save_to_excel_no_snapshot fromisoformat io _ _ _)).
    reflexivity. }
  split.
  { intros f df. simpl. rewrite excel_writes_app, (loop_effects_no_excel _ Hle). simpl.
    intros Hin. apply excel_writes_in in Hin.
    destruct (save_to_excel_excel _ _ _ _ _ _ _ Hin) as [df1 [_ [_ ->]]].
    reflexivity. }
  split.
  { intros h Hx. unfold file_prefix.
    rewrite (nodup_singleton_set _ h Hnd); [reflexivity|].
    intros x. rewrite Heq. apply Hx. }
  split.
  { intros Hno. unfold file_prefix.
    destruct (author_handles st) as [|a [|b l]] eqn:E; auto.
    exfalso. apply (Hno a). intros x. rewrite <- Heq. simpl. intuition. }
  split.
  { intros HP. rewrite HP in Hm. simpl in Hm. inversion Hm as [[Hmn Hmx]].
    unfold date_range. rewrite Hmn. reflexivity. }
  intros t0 rest HP. rewrite HP in Hm.
  destruct Hm as [mn [mx [Hmm Hrest]]]. inversion Hmm as [[Hmn Hmx]].
  exists mn, mx. unfold date_range. rewrite Hmn, Hmx. split; [reflexivity|].
  exact Hrest.
Qed.

Lemma output_name_witness :
  sample_run io_ok dup_page = (Returned, snd (sample_run io_ok dup_page))
  /\ (exists sd ed st e n,
    iso_strptime "2023-01-01"%string = Some sd /\ iso_strptime "2023-01-10"%string = Some ed
    /\ run_loop iso_fromisoformat stamp (last_segment "https://x.com/elonmusk"%string) sd ed dup_page init_state
       = (true, st, e, n)
    /\ cur_filename iso_strftime "2026-10-17"%string (last_segment "https://x.com/elonmusk"%string) st
       = ("data/" ++ file_prefix (last_segment "https://x.com/elonmusk"%string) st ++ "@"
          ++ date_range iso_strftime "2026-10-17"%string st)%string
    /\ json_writes (snd (sample_run io_ok dup_page))
       = [((cur_filename iso_strftime "2026-10-17"%string (last_segment "https://x.com/elonmusk"%string) st
            ++ ".json")%string, tweets_data st)]
    /\ (forall f df, In (f, df) (excel_writes (snd (sample_run io_ok dup_page))) ->
        f = (cur_filename iso_strftime "2026-10-17"%string (last_segment "https://x.com/elonmusk"%string) st
             ++ ".xlsx")%string)
    /\ (forall h, (forall x, In x (handles_of (tweets_data st)) <-> x = h) ->
        file_prefix (last_segment "https://x.com/elonmusk"%string) st = h)
    /\ ((forall h, ~ (forall x, In x (handles_of (tweets_data st)) <-> x = h)) ->
        file_prefix (last_segment "https://x.com/elonmusk"%string) st = last_segment "https://x.com/elonmusk"%string)
    /\ (parsed_dates iso_fromisoformat (firstn n dup_page) = [] ->
        date_range iso_strftime "2026-10-17"%string st = "2026-10-17"%string)
    /\ (forall t0 rest, parsed_dates iso_fromisoformat (firstn n dup_page) = t0 :: rest ->
        exists mn mx,
          date_range iso_strftime "2026-10-17"%string st
          = (iso_strftime mn ++ "_" ++ iso_strftime mx)%string
          /\ In mn (t0 :: rest) /\ In mx (t0 :: rest)
          /\ aware mn = aware t0 /\ aware mx = aware t0
          /\ forall d, In d (t0 :: rest) -> aware d = aware t0 ->
             utc_key mn <= utc_key d <= utc_key mx)).
Proof.
  assert (H : sample_run io_ok dup_page = (Returned, snd (sample_run io_ok dup_page)))
    by (vm_compute; reflexivity).
  split; [exact H|].
  exact (output_name iso_fromisoformat iso_strptime iso_strftime "2026-10-17" stamp
           io_ok "https://x.com/elonmusk" "2023-01-01" "2023-01-10" dup_page _ H).
Defined.

(** C8 (a parsed date can be left out of the range in the file name):
    after an aware date, a post
    dated [2023-01-08] without offset parses to a naive value later than
    every other parsed date, yet comparing it with [min_date] raises, so
    the range in the file name stops at [2023-01-05]. *)
Lemma naive_date_outside_name_range :
  fst (sample_run io_ok mixed_page) = Returned
  /\ json_writes (snd (sample_run io_ok mixed_page))
     = [("data/elonmusk@2022-12-31_2023-01-05.json"%string, [r_jan5])]
  /\ (let '(_, _, _, k) := sample_loop mixed_page in k) = 3%nat
  /\ parsed_dates iso_fromisoformat mixed_page
     = [t_jan5; mkdt 2023 1 8 0 0 0 0 None; mkdt 2022 12 31 10 0 0 0 (Some 0)]
  /\ date_lt t_jan5 (mkdt 2023 1 8 0 0 0 0 None) = true
  /\ iso_strftime (mkdt 2023 1 8 0 0 0 0 None) = "2023-01-08"%string.
Proof. vm_compute. repeat split. Qed.


(** ** Further properties of the code *)

(** *** Author details and handles *)

Lemma str_app_assoc (a b c : string) : ((a ++ b) ++ c)%string = (a ++ (b ++ c))%string.
Proof. induction a as [|x a IH]; simpl; [reflexivity|rewrite IH; reflexivity]. Qed.

Lemma str_app_nil_r (a : string) : (a ++ "")%string = a.
Proof. induction a as [|x a IH]; simpl; [reflexivity|rewrite IH; reflexivity]. Qed.

Lemma split_go_app_nosep sep a s cur :
  no_char sep a = true ->
  split_go sep (a ++ s) cur = split_go sep s (cur ++ a).
Proof.
  revert cur. induction a as [|c a IH]; intros cur H; simpl in *.
  - rewrite str_app_nil_r. reflexivity.
  - apply andb_prop in H as [Hc Ha]. apply negb_true_iff in Hc. rewrite Hc.
    rewrite IH by exact Ha. rewrite str_app_assoc. reflexivity.
Qed.

(** [_extract_author_details] on a text without a line break (as the
    empty text of a missing [User-Name] block) gives the whole text as
    the name and an empty handle, so the record adds no handle to the
    set of [fetch_tweets]. *)
Theorem author_details_single_line t :
  no_char newline t = true -> extract_author_details t = (t, ""%string).
Proof.
  intros H. unfold extract_author_details, py_split_char.
  rewrite <- (str_app_nil_r t) at 1.
  rewrite split_go_app_nosep by exact H. reflexivity.
Qed.

Lemma author_details_single_line_witness :
  no_char newline "Elon Musk" = true
  /\ extract_author_details "Elon Musk" = ("Elon Musk"%string, ""%string).
Proof. split; [reflexivity|]. apply author_details_single_line. reflexivity. Defined.


(** [_extract_author_details] on ["name\nhandle"], possibly followed by
    more lines, gives the first two lines as name and handle. *)
Theorem author_details_two_lines name handle rest :
  no_char newline name = true -> no_char newline handle = true ->
  (rest = ""%string \/ exists r, rest = String newline r) ->
  extract_author_details (name ++ String newline (handle ++ rest))
  = (name, handle).
Proof.
  intros Hn Hh Hr. unfold extract_author_details, py_split_char.
  rewrite split_go_app_nosep by exact Hn. simpl.
  rewrite split_go_app_nosep by exact Hh. simpl.
  destruct Hr as [->|[r ->]]; simpl; [reflexivity|].
  reflexivity.
Qed.

Lemma author_details_two_lines_witness :
  no_char newline "Elon Musk" = true /\ no_char newline "@elonmusk" = true
  /\ extract_author_details sample_user_name = ("Elon Musk"%string, "@elonmusk"%string).
Proof.
  refine (conj eq_refl (conj eq_refl _)).
  apply (author_details_two_lines "Elon Musk" "@elonmusk"
           (String newline ("·" ++ String newline "Jan 5"))); [reflexivity|reflexivity|].
  right. eexists. reflexivity.
Defined.


Lemma replace_go_delete_char a fuel l :
  (List.length l <= fuel)%nat ->
  replace_go [a] [] fuel l = filter (fun c => negb (Ascii.eqb c a)) l.
Proof.
  revert fuel. induction l as [|c l IH]; intros fuel Hf.
  - destruct fuel; reflexivity.
  - destruct fuel as [|fuel]; simpl in Hf; [lia|]. simpl.
    rewrite (Ascii.eqb_sym a c).
    destruct (Ascii.eqb c a); simpl; rewrite IH by lia; reflexivity.
Qed.

(** The handle [fetch_tweets] collects is the author handle with every
    ['@'] removed, and so holds no ['@']. *)
Theorem clean_handle_removes_at r :
  list_ascii_of_string (clean_handle r)
  = filter (fun c => negb (Ascii.eqb c "@")) (list_ascii_of_string (author_handle r))
  /\ ~ In "@"%char (list_ascii_of_string (clean_handle r)).
Proof.
  assert (E : list_ascii_of_string (clean_handle r)
              = filter (fun c => negb (Ascii.eqb c "@"))
                  (list_ascii_of_string (author_handle r))).
  { unfold clean_handle, py_replace.
    rewrite list_ascii_of_string_of_list_ascii. simpl.
    apply replace_go_delete_char. lia. }
  split; [exact E|]. rewrite E. intros Hin.
  apply filter_In in Hin as [_ H]. rewrite Ascii.eqb_refl in H. discriminate.
Qed.

(** *** Deduplication by [url] *)

(** [drop_duplicates(subset=["url"])] keeps exactly the rows that are the
    first of the frame with their [url]: a row is kept if and only if no
    earlier row has the same [url]. *)
Theorem drop_duplicates_first_occurrences df x :
  In x (drop_duplicates df)
  <-> exists pre post, df = pre ++ x :: post /\ ~ In (row_url x) (map row_url pre).
Proof. apply (drop_duplicates_go_in [] df x). Qed.

Lemma drop_duplicates_go_id seen df :
  NoDup (map row_url df) -> (forall u, In u (map row_url df) -> ~ In u seen) ->
  drop_duplicates_go seen df = df.
Proof.
  revert seen. induction df as [|[r c] df IH]; intros seen Hn Hs; simpl; [reflexivity|].
  inversion Hn as [|? ? Hr Hd]; subst.
  destruct (existsb (option_string_eqb (url r)) seen) eqn:He.
  - exfalso. apply existsb_exists in He as [y [Hy E]].
    apply option_string_eqb_eq in E. subst. apply (Hs (url r)); [left; reflexivity|exact Hy].
  - f_equal. apply IH; [exact Hd|].
    intros u Hu [Hu'|Hu'].
    + subst. apply Hr. exact Hu.
    + apply (Hs u); [right; exact Hu|exact Hu'].
Qed.

(** Deduplicating twice is deduplicating once. *)
Theorem drop_duplicates_idempotent df :
  drop_duplicates (drop_duplicates df) = drop_duplicates df.
Proof.
  apply drop_duplicates_go_id; [apply drop_duplicates_nodup|].
  intros u _ [].
Qed.

(** *** Numbers of [aria-label]s *)

Lemma re_digit_ascii ud d : 0 <= d <= 9 -> re_digit ud (48 + d) = Some d.
Proof.
  intros Hd. unfold re_digit.
  destruct (Z.leb_spec 48 (48 + d)); [|lia].
  destruct (Z.leb_spec (48 + d) 57); [|lia].
  replace (48 + d - 48) with d by lia. reflexivity.
Qed.

Lemma findall_go_digits ud ua ds r rest :
  Forall (fun d => 0 <= d <= 9) ds ->
  findall_digit_runs_go ud ua true (Some r) (map (Z.add 48) ds ++ rest)
  = findall_digit_runs_go ud ua true (Some (r ++ ds)) rest.
Proof.
  revert r. induction ds as [|d ds IH]; intros r Hf;
    cbn [map app findall_digit_runs_go].
  - rewrite app_nil_r. reflexivity.
  - inversion Hf as [|? ? Hd Hds]; subst.
    rewrite re_digit_ascii by exact Hd. rewrite IH by exact Hds.
    rewrite <- app_assoc. reflexivity.
Qed.

Lemma findall_go_no_digit ud ua s :
  Forall (fun c => re_digit ud c = None) s ->
  forall pw, findall_digit_runs_go ud ua pw None s = [].
Proof.
  induction 1 as [|c s Hc _ IH]; intros pw; simpl; [reflexivity|].
  rewrite Hc. apply IH.
Qed.

Lemma map_py_int_bounded rs :
  Forall (fun r => (List.length r <= max_str_digits)%nat) rs ->
  map_py_int rs = Some (map (fun r => fold_left (fun acc d => 10 * acc + d) r 0) rs).
Proof.
  induction 1 as [|r rs Hr _ IH]; [reflexivity|].
  cbn [map_py_int map]. unfold py_int_digits.
  destruct (Nat.ltb_spec max_str_digits (List.length r)); [lia|].
  rewrite IH. reflexivity.
Qed.

(** [_extract_number_from_aria_label] gives 0 when the element is
    missing or its label has no digit, and raises when the element has no
    [aria-label] at all. *)
Theorem aria_number_edge_cases ud ua el testid :
  (el_aria el testid = None -> extract_number_from_aria_label ud ua el testid = Some 0)
  /\ (el_aria el testid = Some None -> extract_number_from_aria_label ud ua el testid = None)
  /\ (forall label, el_aria el testid = Some (Some label) ->
      Forall (fun c => re_digit ud c = None) label ->
      extract_number_from_aria_label ud ua el testid = Some 0).
Proof.
  unfold extract_number_from_aria_label.
  split; [intros ->; reflexivity|]. split; [intros ->; reflexivity|].
  intros label -> Hl. unfold findall_digit_runs.
  rewrite (findall_go_no_digit ud ua label Hl false). reflexivity.
Qed.

(** A label that starts with decimal digits followed by the end of the
    label or a character that is neither a digit nor a word character
    (a space, a comma, a point), and whose later digit runs have at most
    4300 digits, gives the number the leading digits denote (["1,234
    Likes"] gives 1, ["1.2K"] gives 1), or raises the [ValueError] of
    [int] when there are more than 4300 of them. *)
Theorem aria_number_leading_digits ud ua el testid ds rest :
  Forall (fun d => 0 <= d <= 9) ds -> ds <> [] ->
  (rest = [] \/ exists c r, rest = c :: r /\ re_digit ud c = None /\ re_word ud ua c = false) ->
  Forall (fun r => (List.length r <= max_str_digits)%nat) (findall_digit_runs ud ua rest) ->
  el_aria el testid = Some (Some (map (Z.add 48) ds ++ rest)) ->
  extract_number_from_aria_label ud ua el testid
  = if (max_str_digits <? List.length ds)%nat then None else Some (digits_value ds).
Proof.
  intros Hf Hne Hr Hb He. unfold extract_number_from_aria_label. rewrite He.
  destruct ds as [|d ds]; [congruence|].
  inversion Hf as [|? ? Hd Hds]; subst.
  unfold findall_digit_runs. cbn [map app findall_digit_runs_go].
  rewrite re_digit_ascii by exact Hd.
  rewrite findall_go_digits by exact Hds. cbn [app].
  assert (Ht : exists tl, findall_digit_runs_go ud ua true (Some (d :: ds)) rest
                          = (d :: ds) :: tl
                          /\ Forall (fun r => (List.length r <= max_str_digits)%nat) tl).
  { destruct Hr as [->|[c [r [-> [Hc Hw]]]]].
    - exists []. split; [reflexivity|constructor].
    - unfold findall_digit_runs in Hb. cbn [findall_digit_runs_go] in Hb |- *.
      rewrite Hc, Hw in *. eexists. split; [reflexivity|exact Hb]. }
  destruct Ht as [tl [-> Htl]].
  cbn [map_py_int]. unfold py_int_digits, digits_value.
  destruct (max_str_digits <? List.length (d :: ds))%nat; [reflexivity|].
  rewrite (map_py_int_bounded tl Htl). reflexivity.
Qed.

Lemma aria_number_leading_digits_witness :
  el_aria sample_element "like" = Some (Some (map (Z.add 48) [1; 0; 2; 4] ++ codepoints " Likes. Like"))
  /\ extract_number_from_aria_label no_unicode_digit no_unicode_alnum sample_element "like"
     = Some 1024.
Proof.
  split; [reflexivity|].
  apply (aria_number_leading_digits no_unicode_digit no_unicode_alnum sample_element "like"
           [1; 0; 2; 4] (codepoints " Likes. Like")).
  - repeat constructor; lia.
  - discriminate.
  - right. exists 32, (codepoints "Likes. Like"). split; [reflexivity|split; reflexivity].
  - vm_compute. constructor.
  - reflexivity.
Defined.


(** *** [_process_tweet] *)

Lemma process_tweet_eq ud ua el row :
  process_tweet ud ua el = Some row ->
  (author_name row, author_handle row)
  = extract_author_details (get_element_text (el_user_name el))
  /\ url row = get_tweet_url el /\ date row = get_element_attribute (el_time el)
  /\ media_type row = get_media_type el
  /\ images_urls row = (if String.eqb (get_media_type el) "Image"
                        then Some (get_images_urls el) else None).
Proof.
  unfold process_tweet.
  destruct (extract_author_details _) as [an ah].
  destruct (extract_number_from_aria_label ud ua el "reply"); [|discriminate].
  destruct (extract_number_from_aria_label ud ua el "retweet"); [|discriminate].
  destruct (extract_number_from_aria_label ud ua el "like"); [|discriminate].
  intros H. inversion H; subst. simpl. auto.
Qed.

Lemma drop_duplicates_go_all_seen seen rows :
  (forall r, In r rows -> In (url r) seen) ->
  drop_duplicates_go seen (read_frame rows) = [].
Proof.
  induction rows as [|r rows IH]; intros H; [reflexivity|].
  cbn [read_frame map drop_duplicates_go].
  assert (Hs : existsb (option_string_eqb (url r)) seen = true).
  { apply existsb_exists. exists (url r). split; [apply H; left; reflexivity|].
    apply option_string_eqb_eq. reflexivity. }
  rewrite Hs. apply IH. intros r' Hr'. apply H. right. exact Hr'.
Qed.

(** Posts whose element has no [/status/] link get the URL [""], and
    the spreadsheet export keeps only the first of them. *)
Theorem missing_status_links_collapse ud ua els rows :
  Forall (fun el => el_status_link el = None) els ->
  map (process_tweet ud ua) els = map Some rows ->
  Forall (fun r => url r = Some ""%string) rows
  /\ drop_duplicates (read_frame rows) = firstn 1 (read_frame rows).
Proof.
  intros Hs Hp.
  assert (Hu : Forall (fun r => url r = Some ""%string) rows).
  { revert rows Hp. induction Hs as [|el els Hel _ IH]; intros [|r rows] Hp;
      simpl in Hp; try discriminate; [constructor|].
    inversion Hp as [[H1 H2]]. constructor.
    - destruct (process_tweet_eq _ _ _ _ H1) as [_ [-> _]].
      unfold get_tweet_url. rewrite Hel. reflexivity.
    - exact (IH rows H2). }
  split; [exact Hu|].
  destruct rows as [|r rows]; [reflexivity|].
  inversion Hu as [|? ? Hr Hrows]; subst.
  unfold drop_duplicates. cbn [read_frame map drop_duplicates_go existsb firstn].
  f_equal. apply drop_duplicates_go_all_seen.
  intros r' Hr'. rewrite Forall_forall in Hrows. rewrite (Hrows r' Hr'), Hr. left. reflexivity.
Qed.

Lemma missing_status_links_collapse_witness :
  Forall (fun el => el_status_link el = None) unlinked_elements
  /\ map (process_tweet no_unicode_digit no_unicode_alnum) unlinked_elements
     = map Some [unlinked_row "first post"; unlinked_row "second post"]
  /\ drop_duplicates (read_frame [unlinked_row "first post"; unlinked_row "second post"])
     = [(unlinked_row "first post", DRaw (date (unlinked_row "first post")))].
Proof.
  assert (H1 : Forall (fun el => el_status_link el = None) unlinked_elements)
    by (repeat constructor).
  assert (H2 : map (process_tweet no_unicode_digit no_unicode_alnum) unlinked_elements
               = map Some [unlinked_row "first post"; unlinked_row "second post"])
    by reflexivity.
  refine (conj H1 (conj H2 _)).
  rewrite (proj2 (missing_status_links_collapse _ _ _ _ H1 H2)). reflexivity.
Defined.


(** *** The search URL *)

Lemma hex_val_hex_digit k : (k < 16)%nat -> hex_val (hex_digit k) = Some k.
Proof. intros Hk. do 16 (destruct k as [|k]; [reflexivity|]). lia. Qed.

Lemma always_safe_hex_digit k : (k < 16)%nat -> always_safe (hex_digit k) = true.
Proof. intros Hk. do 16 (destruct k as [|k]; [reflexivity|]). lia. Qed.

Lemma quote_safe_not_percent c :
  always_safe c || Ascii.eqb c "/" = true -> Ascii.eqb c "%" = false.
Proof.
  intros H. destruct (Ascii.eqb c "%") eqn:E; [|reflexivity].
  apply Ascii.eqb_eq in E. subst. discriminate.
Qed.

Lemma unquote_quote s : unquote_bytes (py_quote s) = s.
Proof.
  induction s as [|c s IH]; [reflexivity|]. cbn [py_quote].
  destruct (always_safe c || Ascii.eqb c "/") eqn:Hs.
  - cbn [unquote_bytes]. rewrite (quote_safe_not_percent c Hs), IH. reflexivity.
  - assert (Hn : (nat_of_ascii c < 256)%nat) by apply nat_ascii_bounded.
    cbn [unquote_bytes]. rewrite Ascii.eqb_refl.
    rewrite !hex_val_hex_digit.
    + rewrite IH. f_equal.
      rewrite <- (Nat.div_mod (nat_of_ascii c) 16) by lia.
      apply ascii_nat_embedding.
    + apply Nat.mod_upper_bound. lia.
    + apply Nat.Div0.div_lt_upper_bound. lia.
Qed.

Lemma quote_charset s :
  str_forallb (fun c => always_safe c || Ascii.eqb c "/" || Ascii.eqb c "%") (py_quote s)
  = true.
Proof.
  induction s as [|c s IH]; [reflexivity|]. cbn [py_quote].
  destruct (always_safe c || Ascii.eqb c "/") eqn:Hs; cbn [str_forallb].
  - rewrite Hs, IH. reflexivity.
  - assert (Hn : (nat_of_ascii c < 256)%nat) by apply nat_ascii_bounded.
    rewrite !always_safe_hex_digit, IH; [reflexivity| |].
    + apply Nat.mod_upper_bound. lia.
    + apply Nat.Div0.div_lt_upper_bound. lia.
Qed.

(** The [q] parameter of the search URL is the query
    ["(from:<username>) until:<end> since:<start>"] percent-encoded: it
    holds only unreserved characters, ['/'] and escapes (no space, ['&'],
    ['#'] or ['=']), and decodes back to the query. *)
Theorem search_url_query_encoding username start_date end_date :
  exists q,
    search_url username start_date end_date
    = ("https://x.com/search?q=" ++ q ++ "&src=typed_query&f=live")%string
    /\ unquote_bytes q = search_query username start_date end_date
    /\ str_forallb (fun c => always_safe c || Ascii.eqb c "/" || Ascii.eqb c "%") q = true.
Proof.
  exists (py_quote (search_query username start_date end_date)).
  split; [reflexivity|]. split; [apply unquote_quote|apply quote_charset].
Qed.

(** *** [analyze_tweets.py] *)

Lemma str_ltb_irrefl a : str_ltb a a = false.
Proof. induction a as [|c a IH]; simpl; [reflexivity|]. rewrite Ascii.eqb_refl. exact IH. Qed.

Lemma ascii_lt_neq x z :
  (nat_of_ascii x < nat_of_ascii z)%nat -> Ascii.eqb x z = false.
Proof.
  intros H. destruct (Ascii.eqb x z) eqn:E; [|reflexivity].
  apply Ascii.eqb_eq in E. subst. lia.
Qed.

Lemma str_ltb_trans a b c :
  str_ltb a b = true -> str_ltb b c = true -> str_ltb a c = true.
Proof.
  revert b c. induction a as [|x a IH]; intros [|y b] [|z c]; simpl;
    try discriminate; try reflexivity.
  destruct (Ascii.eqb x y) eqn:Exy; destruct (Ascii.eqb y z) eqn:Eyz.
  - apply Ascii.eqb_eq in Exy, Eyz. subst. rewrite Ascii.eqb_refl. apply IH.
  - apply Ascii.eqb_eq in Exy. subst. rewrite Eyz. tauto.
  - apply Ascii.eqb_eq in Eyz. subst. rewrite Exy. intros H _. exact H.
  - intros H1 H2. apply Nat.ltb_lt in H1, H2.
    rewrite ascii_lt_neq by lia. apply Nat.ltb_lt. lia.
Qed.

Lemma str_ltb_total a b : str_ltb a b = false -> str_ltb b a = false -> a = b.
Proof.
  revert b. induction a as [|x a IH]; intros [|y b]; simpl; try discriminate; auto.
  rewrite (Ascii.eqb_sym y x).
  destruct (Ascii.eqb x y) eqn:E.
  - apply Ascii.eqb_eq in E. subst. intros H1 H2. f_equal. auto.
  - intros H1 H2. apply Nat.ltb_ge in H1, H2.
    assert (x = y).
    { rewrite <- (ascii_nat_embedding x), <- (ascii_nat_embedding y). f_equal. lia. }
    subst. rewrite Ascii.eqb_refl in E. discriminate.
Qed.

Section AnalyzeFacts.

Variable F : Type.
Variable float_truthy : F -> bool.
Variable json_loads : string -> option (JValue F).
Variable py_lt : JValue F -> JValue F -> option bool.
Hypothesis py_lt_str : forall a b, py_lt (JStr a) (JStr b) = Some (str_ltb a b).

Lemma py_min_go_str cur l :
  exists m, py_min_go F py_lt (JStr cur) (map JStr l) = Some (JStr m)
            /\ In m (cur :: l) /\ forall x, In x (cur :: l) -> str_ltb x m = false.
Proof.
  revert cur. induction l as [|x l IH]; intros cur; simpl.
  - exists cur. split; [reflexivity|]. split; [left; reflexivity|].
    intros y [<-|[]]. apply str_ltb_irrefl.
  - rewrite py_lt_str. destruct (str_ltb x cur) eqn:Hx.
    + destruct (IH x) as [m [Hm [Hin Hmin]]]. exists m. split; [exact Hm|].
      split; [right; exact Hin|].
      intros y [<-|Hy]; [|apply Hmin; exact Hy].
      destruct (str_ltb cur m) eqn:Hym; [|reflexivity].
      specialize (Hmin x (or_introl eq_refl)).
      rewrite (str_ltb_trans x cur m Hx Hym) in Hmin. discriminate.
    + destruct (IH cur) as [m [Hm [Hin Hmin]]]. exists m. split; [exact Hm|].
      split; [destruct Hin as [<-|Hin]; [left; reflexivity|right; right; exact Hin]|].
      intros y [<-|[<-|Hy]].
      * apply Hmin. left. reflexivity.
      * destruct (str_ltb x m) eqn:Hym; [|reflexivity].
        specialize (Hmin cur (or_introl eq_refl)).
        destruct (str_ltb m cur) eqn:Hmc.
        -- rewrite (str_ltb_trans _ _ _ Hym Hmc) in Hx. discriminate.
        -- rewrite <- (str_ltb_total _ _ Hmin Hmc) in Hym. rewrite Hym in Hx. discriminate.
      * apply Hmin. right. exact Hy.
Qed.

Lemma py_max_go_str cur l :
  exists m, py_max_go F py_lt (JStr cur) (map JStr l) = Some (JStr m)
            /\ In m (cur :: l) /\ forall x, In x (cur :: l) -> str_ltb m x = false.
Proof.
  revert cur. induction l as [|x l IH]; intros cur; simpl.
  - exists cur. split; [reflexivity|]. split; [left; reflexivity|].
    intros y [<-|[]]. apply str_ltb_irrefl.
  - rewrite py_lt_str. destruct (str_ltb cur x) eqn:Hx.
    + destruct (IH x) as [m [Hm [Hin Hmax]]]. exists m. split; [exact Hm|].
      split; [right; exact Hin|].
      intros y [<-|Hy]; [|apply Hmax; exact Hy].
      destruct (str_ltb m cur) eqn:Hmy; [|reflexivity].
      specialize (Hmax x (or_introl eq_refl)).
      rewrite (str_ltb_trans m cur x Hmy Hx) in Hmax. discriminate.
    + destruct (IH cur) as [m [Hm [Hin Hmax]]]. exists m. split; [exact Hm|].
      split; [destruct Hin as [<-|Hin]; [left; reflexivity|right; right; exact Hin]|].
      intros y [<-|[<-|Hy]].
      * apply Hmax. left. reflexivity.
      * destruct (str_ltb m x) eqn:Hmy; [|reflexivity].
        specialize (Hmax cur (or_introl eq_refl)).
        destruct (str_ltb cur m) eqn:Hcm.
        -- rewrite (str_ltb_trans _ _ _ Hcm Hmy) in Hx. discriminate.
        -- rewrite <- (str_ltb_total _ _ Hcm Hmax) in Hmy. rewrite Hmy in Hx. discriminate.
      * apply Hmax. right. exact Hy.
Qed.

End AnalyzeFacts.

Lemma load_tweets_nil F jl lines :
  (forall l, In l lines -> jl l = None) -> load_tweets F jl lines = [].
Proof.
  induction lines as [|l lines IH]; intros H; simpl; [reflexivity|].
  rewrite (H l (or_introl eq_refl)). simpl. apply IH. intros l' Hl'. apply H. right. exact Hl'.
Qed.

Lemma load_tweets_length F jl lines :
  List.length (load_tweets F jl lines)
  = List.length (filter (fun l => match jl l with Some _ => true | None => false end) lines).
Proof.
  induction lines as [|l lines IH]; simpl; [reflexivity|].
  destruct (jl l); simpl; rewrite ?IH; reflexivity.
Qed.

Lemma collect_dates_objects F ft ts :
  Forall (fun v => exists kvs, v = JObj kvs) ts -> exists ds, collect_dates F ft ts = Some ds.
Proof.
  induction 1 as [|v ts [kvs ->] _ [ds IH]]; simpl; [eexists; reflexivity|].
  rewrite IH. eexists. reflexivity.
Qed.

(** A file none of whose lines is valid JSON only gets the message that
    it has no valid tweet data. *)
Theorem analyze_no_valid_line F ft jl plt path lines :
  (forall l, In l lines -> jl l = None) ->
  analyze_tweet_file F ft jl plt path lines = (Returned, [PNoData path]).
Proof.
  intros H. unfold analyze_tweet_file. rewrite (load_tweets_nil F jl lines H). reflexivity.
Qed.

Lemma analyze_no_valid_line_witness :
  (forall l, In l ["{broken"; ""]%string -> sample_loads l = None)
  /\ analyze_tweet_file unit no_float_truthy sample_loads sample_lt "data/elonmusk@x.json"
       ["{broken"; ""]%string
     = (Returned, [PNoData "data/elonmusk@x.json"]).
Proof.
  assert (H : forall l, In l ["{broken"; ""]%string -> sample_loads l = None)
    by (intros l [<-|[<-|[]]]; reflexivity).
  exact (conj H (analyze_no_valid_line _ _ _ _ _ _ H)).
Defined.


(** When some line is valid JSON and every valid line is an object, the
    report starts with the file's base name and a total equal to the
    number of valid lines; invalid lines are skipped. *)
Theorem analyze_counts_valid_lines F ft jl plt path lines :
  (exists l, In l lines /\ jl l <> None) ->
  (forall l v, In l lines -> jl l = Some v -> exists kvs, v = JObj kvs) ->
  exists rest,
    snd (analyze_tweet_file F ft jl plt path lines)
    = PFile (last_segment path)
      :: PTotal (List.length (filter (fun l => match jl l with Some _ => true | None => false end)
                                lines))
      :: rest.
Proof.
  intros [l [Hl Hv]] Hobj. unfold analyze_tweet_file.
  assert (Hf : Forall (fun v => exists kvs, v = JObj kvs) (load_tweets F jl lines)).
  { apply Forall_forall. intros v Hin. unfold load_tweets in Hin.
    apply in_flat_map in Hin as [l' [Hl' Hin']].
    destruct (jl l') eqn:E; [|destruct Hin'].
    destruct Hin' as [<-|[]]. exact (Hobj l' _ Hl' E). }
  assert (Hne : load_tweets F jl lines <> []).
  { unfold load_tweets. intros H.
    assert (In l lines /\ In (match jl l with Some v => v | None => JNull end)
                             (match jl l with Some v => [v] | None => [] end)) as [_ Hin].
    { split; [exact Hl|]. destruct (jl l); [left; reflexivity|congruence]. }
    assert (Hin2 : In (match jl l with Some v => v | None => JNull end)
                      (flat_map (fun line => match jl line with Some v => [v] | None => [] end)
                         lines)).
    { apply in_flat_map. exists l. split; assumption. }
    rewrite H in Hin2. destruct Hin2. }
  destruct (collect_dates_objects F ft _ Hf) as [ds Hds].
  rewrite <- load_tweets_length.
  destruct (load_tweets F jl lines) as [|t ts]; [congruence|].
  rewrite Hds.
  destruct ds as [|d ds]; [eexists; reflexivity|].
  destruct (py_min_go F plt d ds); [|eexists; reflexivity].
  destruct (py_max_go F plt d ds); eexists; reflexivity.
Qed.

Lemma analyze_counts_valid_lines_witness :
  (exists l, In l sample_lines /\ sample_loads l <> None)
  /\ (forall l v, In l sample_lines -> sample_loads l = Some v -> exists kvs, v = JObj kvs)
  /\ exists rest,
       snd (analyze_tweet_file unit no_float_truthy sample_loads sample_lt
              "data/elonmusk@x.json" sample_lines)
       = PFile "elonmusk@x.json" :: PTotal 3 :: rest.
Proof.
  assert (H1 : exists l, In l sample_lines /\ sample_loads l <> None).
  { exists (date_line "2023-01-05T10:00:00.000Z"). split; [left; reflexivity|].
    intros H. vm_compute in H. discriminate H. }
  assert (H2 : forall l v, In l sample_lines -> sample_loads l = Some v ->
                           exists kvs, v = JObj kvs).
  { intros l v Hl Hv. destruct Hl as [<-|[<-|[<-|[<-|[]]]]]; vm_compute in Hv;
      try discriminate Hv; injection Hv as <-; eexists; reflexivity. }
  exact (conj H1 (conj H2
    (analyze_counts_valid_lines unit no_float_truthy sample_loads sample_lt
       "data/elonmusk@x.json" sample_lines H1 H2))).
Defined.


(** When Python's [<] on strings is the code point order and the truthy
    dates of the file are the strings [d :: ds], the report ends with the
    earliest and the latest of them: dates of the file such that no date
    is before the earliest nor after the latest. *)
Theorem analyze_earliest_latest F ft jl plt path lines d ds :
  (forall a b, plt (JStr a) (JStr b) = Some (str_ltb a b)) ->
  collect_dates F ft (load_tweets F jl lines) = Some (map JStr (d :: ds)) ->
  exists mn mx,
    analyze_tweet_file F ft jl plt path lines
    = (Returned, [PFile (last_segment path); PTotal (List.length (load_tweets F jl lines));
                  PEarliest (JStr mn); PLatest (JStr mx); PRule])
    /\ In mn (d :: ds) /\ In mx (d :: ds)
    /\ forall x, In x (d :: ds) -> str_ltb x mn = false /\ str_ltb mx x = false.
Proof.
  intros Hlt Hc.
  destruct (py_min_go_str F plt Hlt d ds) as [mn [Hmn [Inn Hmin]]].
  destruct (py_max_go_str F plt Hlt d ds) as [mx [Hmx [Inx Hmax]]].
  exists mn, mx. split; [|split; [exact Inn|split; [exact Inx|]]].
  - unfold analyze_tweet_file.
    destruct (load_tweets F jl lines) as [|t ts] eqn:Ht; [discriminate|].
    rewrite Hc. cbn [map]. rewrite Hmn, Hmx. reflexivity.
  - intros x Hx. split; [apply Hmin|apply Hmax]; exact Hx.
Qed.

Lemma analyze_earliest_latest_witness :
  collect_dates unit no_float_truthy (load_tweets unit sample_loads sample_lines)
  = Some (map JStr ["2023-01-05T10:00:00.000Z"; "2023-01-02T08:00:00.000Z";
                    "2023-01-09T23:00:00.000Z"]%string)
  /\ exists mn mx,
       analyze_tweet_file unit no_float_truthy sample_loads sample_lt "data/elonmusk@x.json"
         sample_lines
       = (Returned, [PFile "elonmusk@x.json"; PTotal 3; PEarliest (JStr mn);
                     PLatest (JStr mx); PRule]).
Proof.
  assert (Hc : collect_dates unit no_float_truthy (load_tweets unit sample_loads sample_lines)
               = Some (map JStr ["2023-01-05T10:00:00.000Z"; "2023-01-02T08:00:00.000Z";
                                 "2023-01-09T23:00:00.000Z"]%string)) by reflexivity.
  split; [exact Hc|].
  destruct (analyze_earliest_latest unit no_float_truthy sample_loads sample_lt
              "data/elonmusk@x.json" sample_lines _ _ (fun a b => eq_refl) Hc)
    as [mn [mx [E _]]].
  exists mn, mx. exact E.
Defined.


(** *** The files [main] of [analyze_tweets.py] reads *)

Lemma no_char_list sep s :
  no_char sep s = forallb (fun c => negb (Ascii.eqb c sep)) (list_ascii_of_string s).
Proof. induction s as [|c s IH]; simpl; [reflexivity|]. unfold no_char in *. simpl. rewrite IH. reflexivity. Qed.

Lemma no_char_app sep a b : no_char sep (a ++ b) = no_char sep a && no_char sep b.
Proof.
  induction a as [|c a IH]; simpl; [reflexivity|]. unfold no_char in *. simpl.
  rewrite IH, andb_assoc. reflexivity.
Qed.

Lemma last_segment_go_noslash s cur :
  no_char "/" s = true -> last_segment_go s cur = (cur ++ s)%string.
Proof.
  revert cur. induction s as [|c s IH]; intros cur H; simpl.
  - rewrite str_app_nil_r. reflexivity.
  - unfold no_char in H. simpl in H. apply andb_prop in H as [Hc Hs].
    apply negb_true_iff in Hc. rewrite Hc. rewrite IH by exact Hs.
    rewrite str_app_assoc. reflexivity.
Qed.

Lemma last_segment_data s : no_char "/" s = true -> last_segment ("data/" ++ s) = s.
Proof. intros H. unfold last_segment. simpl. apply last_segment_go_noslash. exact H. Qed.

Lemma strip_prefix_self p r : strip_prefix p (p ++ r) = Some r.
Proof. induction p as [|c p IH]; simpl; [reflexivity|]. rewrite Ascii.eqb_refl. exact IH. Qed.

Lemma strip_at_differs q p rest :
  forallb (fun c => negb (Ascii.eqb c "@")) q = true ->
  forallb (fun c => negb (Ascii.eqb c "@")) p = true ->
  strip_prefix (q ++ ["@"%char]) (p ++ "@"%char :: rest) <> None -> p = q.
Proof.
  revert p. induction q as [|a q IH]; intros [|c p] Hq Hp H;
    cbn [strip_prefix app forallb] in *; auto.
  - apply andb_prop in Hp as [Hc _]. apply negb_true_iff in Hc.
    rewrite Ascii.eqb_sym, Hc in H. congruence.
  - apply andb_prop in Hq as [Ha _]. apply negb_true_iff in Ha.
    rewrite Ha in H. congruence.
  - apply andb_prop in Hq as [Ha Hq]. apply andb_prop in Hp as [Hc Hp].
    destruct (Ascii.eqb a c) eqn:E; [|congruence].
    apply Ascii.eqb_eq in E. subst. f_equal. apply IH; assumption.
Qed.

Lemma strip_at_none q l :
  forallb (fun c => negb (Ascii.eqb c "@")) q = true ->
  forallb (fun c => negb (Ascii.eqb c "@")) (firstn (S (List.length q)) l) = true ->
  strip_prefix (q ++ ["@"%char]) l = None.
Proof.
  revert l. induction q as [|a q IH]; intros [|c l] Hq Hl;
    cbn [strip_prefix app forallb firstn List.length] in *; auto.
  - apply andb_prop in Hl as [Hc _]. apply negb_true_iff in Hc.
    rewrite Ascii.eqb_sym, Hc. reflexivity.
  - apply andb_prop in Hq as [_ Hq]. apply andb_prop in Hl as [_ Hl].
    destruct (Ascii.eqb a c); [|reflexivity]. apply IH; assumption.
Qed.

Lemma py_endswith_app p s : py_endswith p (s ++ p) = true.
Proof.
  unfold py_endswith. rewrite ReplaceFacts.list_ascii_of_string_app, rev_app_distr.
  rewrite strip_prefix_self. reflexivity.
Qed.

(** The JSON file [fetch_tweets] writes at the end of a run, listed by
    its base name in [data], is analysed by [main] exactly when the
    run's file prefix is [elonmusk] (for a prefix without ['@'], as a
    collected handle is, and a prefix and a date range without ['/']). *)
Theorem analyzed_final_json strftime_ymd now_ymd username st :
  no_char "@" (file_prefix username st) = true ->
  no_char "/" (file_prefix username st) = true ->
  no_char "/" (date_range strftime_ymd now_ymd st) = true ->
  selected (last_segment (cur_filename strftime_ymd now_ymd username st ++ ".json"))
  = true
  <-> file_prefix username st = "elonmusk"%string.
Proof.
  intros Ha Hp Hr. unfold cur_filename.
  set (p := file_prefix username st) in *.
  set (r := date_range strftime_ymd now_ymd st) in *.
  assert (Ef : (("data/" ++ p ++ "@" ++ r) ++ ".json")%string
              = ("data/" ++ ((p ++ "@" ++ r) ++ ".json"))%string)
    by (rewrite !str_app_assoc; reflexivity).
  rewrite Ef, last_segment_data.
  2:{ rewrite !no_char_app, Hp, Hr. reflexivity. }
  unfold selected. rewrite py_endswith_app. simpl andb. unfold py_startswith.
  rewrite !ReplaceFacts.list_ascii_of_string_app. rewrite <- !app_assoc.
  change (list_ascii_of_string "@") with ["@"%char]. simpl app at 2.
  split.
  - intros H. destruct (strip_prefix _ _) eqn:E; [|discriminate].
    assert (Hl : list_ascii_of_string p = list_ascii_of_string "elonmusk").
    { apply (strip_at_differs _ _ (list_ascii_of_string r ++ list_ascii_of_string ".json")).
      - reflexivity.
      - rewrite <- no_char_list. exact Ha.
      - intros Hc. cbn [list_ascii_of_string app] in Hc, E. congruence. }
    rewrite <- (string_of_list_ascii_of_string p), Hl. reflexivity.
  - intros ->. reflexivity.
Qed.

Lemma analyzed_final_json_witness :
  no_char "@" (file_prefix "elonmusk" final_state) = true
  /\ selected (last_segment (cur_filename iso_strftime "2026-10-17" "elonmusk" final_state
                             ++ ".json")) = true.
Proof.
  split; [reflexivity|].
  apply (analyzed_final_json iso_strftime "2026-10-17" "elonmusk" final_state);
    reflexivity.
Defined.


(** The intermediate snapshots of a run, written under a username without
    ['@'] or ['/'], are never analysed by [main]. *)
Theorem snapshots_not_analyzed now_stamp username n :
  no_char "@" username = true -> no_char "/" username = true ->
  no_char "/" (now_stamp n) = true ->
  selected (last_segment (intermediate_filename now_stamp username n)) = false.
Proof.
  intros Ha Hs Hn. unfold intermediate_filename.
  rewrite last_segment_data by (rewrite !no_char_app, Hs, Hn; reflexivity).
  unfold selected, py_startswith.
  rewrite (strip_at_none (list_ascii_of_string "elonmusk")).
  - apply andb_false_r.
  - reflexivity.
  - rewrite !ReplaceFacts.list_ascii_of_string_app, firstn_app, forallb_app.
    rewrite no_char_list in Ha.
    apply andb_true_intro. split.
    + rewrite <- (firstn_skipn (S (List.length (list_ascii_of_string "elonmusk")))
                   (list_ascii_of_string username)) in Ha.
      rewrite forallb_app in Ha. apply andb_prop in Ha. apply Ha.
    + remember (S (List.length (list_ascii_of_string "elonmusk"))
                - List.length (list_ascii_of_string username))%nat as k.
      assert (Hk : (k <= 9)%nat)
        by (subst k; change (S (List.length (list_ascii_of_string "elonmusk"))) with 9%nat; lia).
      do 10 (destruct k as [|k]; [reflexivity|]). lia.
Qed.

Lemma snapshots_not_analyzed_witness :
  no_char "@" "elonmusk" = true
  /\ selected (last_segment (intermediate_filename stamp "elonmusk" 10)) = false.
Proof.
  split; [reflexivity|].
  apply (snapshots_not_analyzed stamp "elonmusk" 10); reflexivity.
Defined.

